(** * pytest-azurepipelines: the Docker path remapping and the session hooks

    A shallow embedding of [pytest_azurepipelines.py].  Python [str] values
    are sequences of Unicode code points, [bytes] values are sequences of
    bytes, the interpreter's standard output is the sequence of [print]
    calls, and everything the plugin asks of the operating system goes
    through an explicit [Host] interface. *)

From Stdlib Require Import List ZArith NArith Lia Bool Ascii String DecimalString.
Import ListNotations.

Set Implicit Arguments.

(** ** Python strings *)

Module Py.

(** A code point, and a [str]. *)
Definition char := N.
Definition str := list char.
Definition bytes := list Byte.byte.

(** A literal of the source, as a [str]. *)
Definition u (s : string) : str := map N_of_ascii (list_ascii_of_string s).

(** [len(x)], of a [str] or of a list. *)
Definition len {A : Type} (l : list A) : nat := List.length l.

(** [s[n:]] *)
Definition slice_from (n : nat) (s : str) : str := skipn n s.

(** [s.startswith(prefix)] *)
Fixpoint startswith (s prefix : str) {struct prefix} : bool :=
  match prefix, s with
  | [], _ => true
  | _ :: _, [] => false
  | p :: prefix', c :: s' => (c =? p)%N && startswith s' prefix'
  end.

(** [s.endswith(suffix)] *)
Definition endswith (s suffix : str) : bool :=
  startswith (rev s) (rev suffix).

(** [sep.join(parts)] *)
Fixpoint join (sep : str) (parts : list str) : str :=
  match parts with
  | [] => []
  | [p] => p
  | p :: ps => p ++ sep ++ join sep ps
  end.

(** [s.split(sep)] for a separator of one character: every occurrence of
    the separator ends a field, so there is always at least one field and
    two adjacent separators enclose an empty one. *)
Fixpoint split (sep : char) (s : str) : list str :=
  match s with
  | [] => [[]]
  | c :: s' =>
      if (c =? sep)%N then [] :: split sep s'
      else match split sep s' with
           | w :: ws => (c :: w) :: ws
           | [] => [[c]]
           end
  end.

(** The line boundaries of [str.splitlines]: LF, VT, FF, CR, FS, GS, RS,
    NEL, LINE SEPARATOR and PARAGRAPH SEPARATOR. *)
Definition is_linebreak (c : char) : bool :=
  ((c =? 10) || (c =? 11) || (c =? 12) || (c =? 13) || (c =? 28)
   || (c =? 29) || (c =? 30) || (c =? 133) || (c =? 8232) || (c =? 8233))%N.

(** [s.splitlines()]: [cur] is the line being read, most recent character
    first.  CR LF is one boundary; a final line is produced only when it
    has at least one character. *)
Fixpoint splitlines_from (cur : str) (s : str) : list str :=
  match s with
  | [] => match cur with [] => [] | _ :: _ => [rev cur] end
  | c :: s' =>
      if is_linebreak c then
        rev cur ::
          match s' with
          | d :: s'' =>
              if ((c =? 13) && (d =? 10))%N then splitlines_from [] s''
              else splitlines_from [] s'
          | [] => splitlines_from [] s'
          end
      else splitlines_from (c :: cur) s'
  end.

Definition splitlines (s : str) : list str := splitlines_from [] s.

(** [s.replace(old, new)]: occurrences are found left to right and do not
    overlap.  [skip] counts the characters of a replaced occurrence that
    are still to be passed over. *)
Fixpoint replace_from (old new : str) (skip : nat) (s : str) : str :=
  match s with
  | [] => []
  | c :: s' =>
      match skip with
      | S k => replace_from old new k s'
      | O =>
          if startswith s old
          then new ++ replace_from old new (len old - 1) s'
          else c :: replace_from old new 0 s'
      end
  end.

Definition replace (old new : str) (s : str) : str :=
  match old with
  | [] => new ++ flat_map (fun c => c :: new) s
  | _ :: _ => replace_from old new 0 s
  end.

(** [str(n)] for an [int]. *)
Definition str_of_int (n : Z) : str :=
  u (NilEmpty.string_of_int (Z.to_int n)).

Definition is_digit (c : char) : bool := ((48 <=? c) && (c <=? 57))%N.

(** [template.format(args...)] for the templates of the plugin, whose
    replacement fields are [{0}] to [{9}] and whose arguments are
    strings. *)
Fixpoint format (template : str) (args : list str) : str :=
  match template with
  | [] => []
  | c :: rest =>
      match rest with
      | d :: e :: rest' =>
          if ((c =? 123) && is_digit d && (e =? 125))%N
          then nth (N.to_nat (d - 48)) args [] ++ format rest' args
          else c :: format rest args
      | _ => c :: format rest args
      end
  end.

(** Truth value of a [str]. *)
Definition truthy (s : str) : bool :=
  match s with [] => false | _ :: _ => true end.

End Py.

Import Py.

(** ** [apply_docker_mappings] *)

Definition SPACE : char := 32%N.

(** The body of the loop over the lines of the mount table: the new value of
    [dockerpath] after [line]. *)
Definition docker_mapping_step (dockerpath line : str) : str :=
  let words := split SPACE line in
  if (len words <? 5)%nat then dockerpath
  else
    let docker_mnt_path := nth 4 words [] in
    let host_mnt_path := nth 3 words [] in
    if startswith dockerpath docker_mnt_path
    then join [] [host_mnt_path; slice_from (len docker_mnt_path) dockerpath]
    else dockerpath.

Definition apply_docker_mappings (mountinfo dockerpath : str) : str :=
  fold_left docker_mapping_step (splitlines mountinfo) dockerpath.

(** ** The two components the specification names

    The loop of [apply_docker_mappings] reads a line and applies it in one
    pass.  The specification describes it as a parser followed by a
    remapper; these are the two halves, written after the specification and
    shown below to compose to the source function. *)

Record MountEntry := {
  host_mount_point : str;
  container_mount_point : str
}.

Definition parse_line (line : str) : option MountEntry :=
  let words := split SPACE line in
  if (len words <? 5)%nat then None
  else Some {| host_mount_point := nth 3 words [];
               container_mount_point := nth 4 words [] |}.

(** The entries of one line: one or none. *)
Definition opt_to_list {A} (o : Datatypes.option A) : list A :=
  match o with Some a => [a] | None => [] end.

Fixpoint parse_lines (lines : list str) : list MountEntry :=
  match lines with
  | [] => []
  | l :: ls =>
      match parse_line l with
      | Some e => e :: parse_lines ls
      | None => parse_lines ls
      end
  end.

Definition parse (raw_text : str) : list MountEntry :=
  parse_lines (splitlines raw_text).

Definition remap_entry (path : str) (e : MountEntry) : str :=
  if startswith path (container_mount_point e)
  then host_mount_point e ++ slice_from (len (container_mount_point e)) path
  else path.

Definition remap (entries : list MountEntry) (path : str) : str :=
  fold_left remap_entry entries path.

(** An entry written as the specification writes it: host first. *)
Definition entry (host container : string) : MountEntry :=
  {| host_mount_point := u host; container_mount_point := u container |}.

(** Whether the scan rewrites the path at some step: the test of each entry
    is made on the path as the earlier entries left it. *)
Fixpoint scan_matches (entries : list MountEntry) (path : str) : bool :=
  match entries with
  | [] => false
  | e :: es =>
      startswith path (container_mount_point e)
      || scan_matches es (remap_entry path e)
  end.

(** ** Exceptions, standard output and the host system *)

(** An instance of [Exception]: its class and [str(ex)]. *)
Record PyException := {
  exc_class : string;
  exc_str : str
}.

(** The state a hook runs in: the file system of the host, of a type [W]
    the plugin never looks into, and the lines printed so far, one per call
    of [print]. *)
Record World (W : Type) := {
  fs : W;
  stdout : list str
}.

(** A computation either returns a value or raises; the state it leaves
    behind is kept in both cases. *)
Definition IO (W A : Type) : Type := World W -> World W * (PyException + A).

Definition ret {W A} (a : A) : IO W A := fun w => (w, inr a).

Definition bind {W A B} (m : IO W A) (k : A -> IO W B) : IO W B :=
  fun w =>
    match m w with
    | (w', inr a) => k a w'
    | (w', inl ex) => (w', inl ex)
    end.

(** [try: body  except Exception as ex: handler(ex)] *)
Definition try_except {W A} (body : IO W A) (handler : PyException -> IO W A)
  : IO W A :=
  fun w =>
    match body w with
    | (w', inr a) => (w', inr a)
    | (w', inl ex) => handler ex w'
    end.

Declare Scope io_scope.
Delimit Scope io_scope with io.
Notation "x <- m ;; k" := (bind m (fun x => k))
  (at level 61, m at next level, right associativity) : io_scope.
Notation "m ;; k" := (bind m (fun _ => k))
  (at level 61, right associativity) : io_scope.
Open Scope io_scope.

(** [print(line)]: one more line on the standard output.  The encoding
    of the line to the stream is outside the model: a [print] returns. *)
Definition print {W} (line : str) : IO W unit :=
  fun w => ({| fs := fs w; stdout := stdout w ++ [line] |}, inr tt).

(** [for x in xs: body(x)] *)
Fixpoint for_each {W A} (xs : list A) (body : A -> IO W unit) : IO W unit :=
  match xs with
  | [] => ret tt
  | x :: xs' => body x ;; for_each xs' body
  end.

(** What the plugin calls outside its own module.  The functions of
    [os.path] that only compute on the path (with the environment and the
    working directory of the process, fixed during a hook) are functions of
    the path; the others read or change the file system. *)
Record Host (W : Type) := {
  os_path_expandvars : str -> str;
  os_path_expanduser : str -> str;
  os_path_abspath : str -> str;
  os_path_normpath : str -> str;
  os_path_join : str -> str -> str;
  os_path_isfile : W -> str -> bool;
  os_path_exists : W -> str -> bool;
  os_listdir : W -> str -> PyException + list str;
  (** [with io.open(path, 'rb') as f: f.read()] *)
  read_binary : W -> str -> PyException + bytes;
  (** [data.decode(sys.getfilesystemencoding())] *)
  decode_filesystemencoding : bytes -> PyException + str;
  (** [with open(path, mode='rt') as f: f.read()] *)
  read_text : W -> str -> PyException + str;
  (** [with open(path, mode='wt') as f: f.write(text)] *)
  write_text : W -> str -> str -> W * option PyException;
  (** [get_resource_folder_path()], the search for the [resources] folder
      among the ancestors of the installed package, taken whole: it gives
      the folder or raises ([RuntimeError] when the search reaches the
      root), and nothing the hooks print depends on how. *)
  get_resource_folder_path : W -> PyException + str
}.

(** Lifting of the host's operations. *)
Definition ask {W A} (f : W -> A) : IO W A :=
  fun w => (w, inr (f (fs w))).

Definition attempt {W A} (f : W -> PyException + A) : IO W A :=
  fun w => (w, f (fs w)).

Definition of_result {W A} (r : PyException + A) : IO W A :=
  fun w => (w, r).

Definition update {W} (f : W -> W * option PyException) : IO W unit :=
  fun w =>
    let (fs', r) := f (fs w) in
    ({| fs := fs'; stdout := stdout w |},
     match r with Some ex => inl ex | None => inr tt end).

(** ** The session of the test framework *)

(** [session.shouldfail] is [False] or the reason of the abort. *)
Inductive BoolOrStr :=
| PyBool (b : bool)
| PyStr (s : str).

Definition truth (v : BoolOrStr) : bool :=
  match v with
  | PyBool b => b
  | PyStr s => truthy s
  end.

Record Options := {
  nunit_xmlpath : str;
  azure_run_title : str;
  napoleon : bool;
  no_coverage_upload : bool;
  no_docker_discovery : bool
}.

Record Config := {
  config_option : Options;
  plugins : list string
}.

Definition has_plugin (c : Config) (name : string) : bool :=
  existsb (String.eqb name) (plugins c).

Record Session := {
  config : Config;
  testsfailed : Z;
  testscollected : Z;
  shouldfail : BoolOrStr
}.

Definition DEFAULT_PATH : str := u "test-output.xml".
Definition DEFAULT_COVERAGE_PATH : str := u "coverage/coverage.xml".
Definition DEFAULT_HTML_COVERAGE_PATH : str := u "coverage/htmlcov".

(** ** The hooks *)

Section Hooks.

Context {W : Type} (host : Host W).

Definition get_resource_file_content (file_name : str) : IO W str :=
  folder <- attempt (get_resource_folder_path host) ;;
  attempt (fun w => read_text host w (os_path_join host folder file_name)).

Definition inline_css_into_each_html_report_file (reportdir : str)
  : IO W unit :=
  css <- get_resource_file_content (u "style.css") ;;
  let style_fragment := [10%N] ++ u "<style>" ++ [10%N] ++ css
                        ++ [10%N] ++ u "</style>" ++ [10%N] in
  files <- attempt (fun w => os_listdir host w reportdir) ;;
  for_each files (fun file =>
    if endswith file (u ".html") then
      let full_path := os_path_join host reportdir file in
      text <- attempt (fun w => read_text host w full_path) ;;
      let new_text :=
        replace (u "</head>") (style_fragment ++ u "</head>") text in
      update (fun w => write_text host w full_path new_text)
    else ret tt).

Definition try_to_inline_css_into_each_html_report_file (reportdir : str)
  : IO W unit :=
  try_except
    (inline_css_into_each_html_report_file reportdir)
    (fun ex =>
       print (format (u "##vso[task.logissue type=warning;]{0}{1}")
                [u "Failed to inline CSS styles in coverage reports. Error: ";
                 exc_str ex])).

(** [if mountinfo: path = apply_docker_mappings(mountinfo, path)], where
    [mountinfo] is [None] or the text of the mount table. *)
Definition map_if_mounted (mountinfo : option str) (path : str) : str :=
  match mountinfo with
  | Some m => if truthy m then apply_docker_mappings m path else path
  | None => path
  end.

Definition pytest_sessionfinish (session : Session) (exitstatus : Z)
  : IO W unit :=
  let opt := config_option (config session) in
  let xmlpath := nunit_xmlpath opt in
  let mode := u "NUnit" in
  let xmlabspath :=
    os_path_normpath host
      (os_path_abspath host
         (os_path_expanduser host (os_path_expandvars host xmlpath))) in
  detected <-
    (if negb (no_docker_discovery opt)
     then ask (fun w => os_path_isfile host w (u "/.dockerenv"))
     else ret false) ;;
  mountinfo <-
    (if detected then
       data <- attempt (fun w => read_binary host w (u "/proc/1/mountinfo")) ;;
       text <- of_result (decode_filesystemencoding host data) ;;
       ret (Some text)
     else ret None) ;;
  let xmlabspath := map_if_mounted mountinfo xmlabspath in
  let description := replace (u "'") [] (azure_run_title opt) in
  (if negb (no_docker_discovery opt) then
     print (format
              (u "##vso[results.publish type={2};runTitle='{1}';publishRunAttachments=true;]{0}")
              [xmlabspath; description; mode])
   else
     print (u "Skipping uploading of test results because --no-docker-discovery set.")) ;;
  (if negb (exitstatus =? 0)%Z && (testsfailed session >? 0)%Z
      && negb (truth (shouldfail session)) then
     print (format
              (u "##vso[task.logissue type=error;]{0} test(s) failed, {1} test(s) collected.")
              [str_of_int (testsfailed session);
               str_of_int (testscollected session)])
   else ret tt) ;;
  if negb (no_coverage_upload opt) && negb (no_docker_discovery opt)
     && has_plugin (config session) "pytest_cov" then
    let covpath :=
      os_path_normpath host
        (os_path_abspath host
           (os_path_expanduser host
              (os_path_expandvars host DEFAULT_COVERAGE_PATH))) in
    let reportdir :=
      os_path_normpath host
        (os_path_abspath host DEFAULT_HTML_COVERAGE_PATH) in
    present <- ask (fun w => os_path_exists host w covpath) ;;
    if present then
      let covpath' := map_if_mounted mountinfo covpath in
      let reportdir' := map_if_mounted mountinfo reportdir in
      try_to_inline_css_into_each_html_report_file reportdir' ;;
      print (format
               (u "##vso[codecoverage.publish codecoveragetool=Cobertura;summaryfile={0};reportdirectory={1};]")
               [covpath'; reportdir'])
    else
      print (format (u "##vso[task.logissue type=warning;]{0}")
               [u "Coverage XML was not created, skipping upload."])
  else
    print (u "Skipping uploading of coverage data.").

(** The warning hook: [pytest_warning_recorded] from pytest 7.0.0 on,
    [pytest_warning_captured] before; the two have one body.
    [warning_message_str] is [str(warning_message.message)]. *)
Definition warning_hook_body (warning_message_str : str) : IO W unit :=
  print (format (u "##vso[task.logissue type=warning;]{0}")
           [warning_message_str]).

Definition pytest_warning_recorded := warning_hook_body.
Definition pytest_warning_captured := warning_hook_body.

(** The hook the module defines, by the version of pytest it is loaded
    in: its name and its function. *)
Definition defined_warning_hook (pytest_at_least_7_0_0 : bool)
  : string * (str -> IO W unit) :=
  if pytest_at_least_7_0_0
  then ("pytest_warning_recorded"%string, pytest_warning_recorded)
  else ("pytest_warning_captured"%string, pytest_warning_captured).

End Hooks.

(** ** Observations on a run *)

(** The directives of the CI platform, as the specification spells them. *)
Definition publish_results_directive (title path : str) : str :=
  u "##vso[results.publish type=NUnit;runTitle='" ++ title
  ++ u "';publishRunAttachments=true;]" ++ path.

Definition log_error_directive (failed collected : Z) : str :=
  u "##vso[task.logissue type=error;]" ++ str_of_int failed
  ++ u " test(s) failed, " ++ str_of_int collected
  ++ u " test(s) collected.".

Definition log_warning_directive (message : str) : str :=
  u "##vso[task.logissue type=warning;]" ++ message.

Definition publish_coverage_directive (summaryfile reportdirectory : str)
  : str :=
  u "##vso[codecoverage.publish codecoveragetool=Cobertura;summaryfile="
  ++ summaryfile ++ u ";reportdirectory=" ++ reportdirectory ++ u ";]".

Definition results_skipped_line : str :=
  u "Skipping uploading of test results because --no-docker-discovery set.".

Definition coverage_skipped_line : str :=
  u "Skipping uploading of coverage data.".

Definition coverage_missing_message : str :=
  u "Coverage XML was not created, skipping upload.".

Definition inline_failure_message (ex : PyException) : str :=
  u "Failed to inline CSS styles in coverage reports. Error: " ++ exc_str ex.

(** Recognisers of the printed lines, by the command they open with. *)
Definition is_publish_results (line : str) : bool :=
  startswith line (u "##vso[results.publish ").

Definition is_log_error (line : str) : bool :=
  startswith line (u "##vso[task.logissue type=error;]").

Definition is_log_warning (line : str) : bool :=
  startswith line (u "##vso[task.logissue type=warning;]").

Definition is_publish_coverage (line : str) : bool :=
  startswith line (u "##vso[codecoverage.publish ").

Definition is_coverage_missing (line : str) : bool :=
  startswith line (log_warning_directive coverage_missing_message).

Definition count (p : str -> bool) (out : list str) : nat :=
  List.length (filter p out).

(** A title without its single quotes. *)
Definition QUOTE : char := 39%N.

Definition without_quotes (title : str) : str :=
  filter (fun c => negb (c =? QUOTE)%N) title.

(** A hook started with nothing printed yet. *)
Definition start {W} (w : W) : World W := {| fs := w; stdout := [] |}.

Definition printed {W A} (r : World W * (PyException + A)) : list str :=
  stdout (fst r).

Definition outcome {W A} (r : World W * (PyException + A))
  : PyException + A := snd r.

Definition returns {W A} (r : World W * (PyException + A)) : bool :=
  match snd r with inr _ => true | inl _ => false end.

(** A computation that neither prints nor looks at what was printed. *)
Definition silent {W A} (m : IO W A) : Prop :=
  forall w,
    m w = (let r := m (start (fs w)) in
           ({| fs := fs (fst r); stdout := stdout w |}, snd r)).

Section Observations.

Context {W : Type} (host : Host W).

(** [normpath(abspath(expanduser(expandvars(path))))] *)
Definition resolve (path : str) : str :=
  os_path_normpath host
    (os_path_abspath host
       (os_path_expanduser host (os_path_expandvars host path))).

(** The hook takes the process for containerized. *)
Definition containerized (session : Session) (w : W) : bool :=
  negb (no_docker_discovery (config_option (config session)))
  && os_path_isfile host w (u "/.dockerenv").

(** What reading and decoding the mount table gives. *)
Definition mount_table (w : W) : PyException + str :=
  match read_binary host w (u "/proc/1/mountinfo") with
  | inl ex => inl ex
  | inr data => decode_filesystemencoding host data
  end.

(** The failure condition of the session. *)
Definition tests_failed (session : Session) (exitstatus : Z) : bool :=
  negb (exitstatus =? 0)%Z && (testsfailed session >? 0)%Z
  && negb (truth (shouldfail session)).

(** The coverage step is taken. *)
Definition coverage_enabled (session : Session) : bool :=
  negb (no_coverage_upload (config_option (config session)))
  && negb (no_docker_discovery (config_option (config session)))
  && has_plugin (config session) "pytest_cov".

(** The inlining alone, on a file system: the file system it leaves and
    how it ended. *)
Definition inlining (reportdir : str) (w : W) : W * (PyException + unit) :=
  let r := inline_css_into_each_html_report_file host reportdir (start w) in
  (fs (fst r), snd r).

Definition inlining_lines (reportdir : str) (w : W) : list str :=
  match snd (inlining reportdir w) with
  | inl ex => [log_warning_directive (inline_failure_message ex)]
  | inr _ => []
  end.

(** The lines of the three steps of the hook, for a mount table that was
    read ([Some]) or not asked for ([None]). *)
Definition results_lines (session : Session) (mountinfo : Datatypes.option str)
  : list str :=
  let opt := config_option (config session) in
  if no_docker_discovery opt then [results_skipped_line]
  else [publish_results_directive
          (without_quotes (azure_run_title opt))
          (map_if_mounted mountinfo (resolve (nunit_xmlpath opt)))].

Definition failure_lines (session : Session) (exitstatus : Z) : list str :=
  if tests_failed session exitstatus
  then [log_error_directive (testsfailed session) (testscollected session)]
  else [].

Definition coverage_lines (session : Session)
  (mountinfo : Datatypes.option str) (w : W) : list str :=
  if coverage_enabled session then
    let covpath := resolve DEFAULT_COVERAGE_PATH in
    let reportdir :=
      os_path_normpath host
        (os_path_abspath host DEFAULT_HTML_COVERAGE_PATH) in
    if os_path_exists host w covpath then
      inlining_lines (map_if_mounted mountinfo reportdir) w
      ++ [publish_coverage_directive
            (map_if_mounted mountinfo covpath)
            (map_if_mounted mountinfo reportdir)]
    else [log_warning_directive coverage_missing_message]
  else [coverage_skipped_line].

(** The reading of the specification in which the existence of the
    coverage XML is tested on the remapped path. *)
Definition coverage_lines_checking_remapped (session : Session)
  (mountinfo : Datatypes.option str) (w : W) : list str :=
  if coverage_enabled session then
    let covpath := map_if_mounted mountinfo (resolve DEFAULT_COVERAGE_PATH) in
    let reportdir :=
      map_if_mounted mountinfo
        (os_path_normpath host
           (os_path_abspath host DEFAULT_HTML_COVERAGE_PATH)) in
    if os_path_exists host w covpath then
      inlining_lines reportdir w
      ++ [publish_coverage_directive covpath reportdir]
    else [log_warning_directive coverage_missing_message]
  else [coverage_skipped_line].

Definition session_lines (session : Session) (exitstatus : Z)
  (mountinfo : Datatypes.option str) (w : W) : list str :=
  results_lines session mountinfo
  ++ failure_lines session exitstatus
  ++ coverage_lines session mountinfo w.

(** The file system after the hook: the inlining is all that writes. *)
Definition fs_after_session (session : Session)
  (mountinfo : Datatypes.option str) (w : W) : W :=
  if coverage_enabled session
     && os_path_exists host w (resolve DEFAULT_COVERAGE_PATH)
  then fst (inlining
              (map_if_mounted mountinfo
                 (os_path_normpath host
                    (os_path_abspath host DEFAULT_HTML_COVERAGE_PATH))) w)
  else w.

(** The hook from the detection on. *)
Definition finished (session : Session) (exitstatus : Z)
  (mountinfo : Datatypes.option str) (w : World W)
  : World W * (PyException + unit) :=
  ({| fs := fs_after_session session mountinfo (fs w);
      stdout := stdout w ++ session_lines session exitstatus mountinfo (fs w) |},
   inr tt).

(** The detection step: no container ([None]), the mount table of the
    container, or the exception of reading it. *)
Definition detection (session : Session) (w : W)
  : PyException + Datatypes.option str :=
  if containerized session w then
    match mount_table w with
    | inl ex => inl ex
    | inr text => inr (Some text)
    end
  else inr None.

(** The reading of the specification in which a mount table that cannot
    be read or decoded counts as no container. *)
Definition unreadable_mount_table_is_no_container (session : Session)
  (exitstatus : Z) (w : W) : Prop :=
  forall ex,
    detection session w = inl ex ->
    pytest_sessionfinish host session exitstatus (start w)
    = finished session exitstatus None (start w).

(** The reading of the specification in which the error directive depends
    on the failure condition alone. *)
Definition error_directive_iff_tests_failed (session : Session)
  (exitstatus : Z) (w : W) : Prop :=
  count is_log_error
    (printed (pytest_sessionfinish host session exitstatus (start w))) = 1
  <-> tests_failed session exitstatus = true.

(** The whole run of the hook, step by step. *)
Definition sessionfinish_result (session : Session) (exitstatus : Z)
  (w : World W) : World W * (PyException + unit) :=
  if containerized session (fs w) then
    match mount_table (fs w) with
    | inl ex => (w, inl ex)
    | inr text => finished session exitstatus (Some text) w
    end
  else finished session exitstatus None w.

End Observations.

(** ** A container to run the hooks in

    A small host: a file system of text files and directory listings, a
    working directory [/app], no variables and no home to expand. *)

Module Container.

Record FS := {
  files : list (str * str);
  directories : list (str * list str)
}.

Fixpoint str_eqb (a b : str) : bool :=
  match a, b with
  | [], [] => true
  | x :: a', y :: b' => (x =? y)%N && str_eqb a' b'
  | _, _ => false
  end.

Fixpoint lookup {A} (path : str) (l : list (str * A)) : Datatypes.option A :=
  match l with
  | [] => None
  | (p, a) :: l' => if str_eqb p path then Some a else lookup path l'
  end.

Definition no_such_file (path : str) : PyException :=
  {| exc_class := "FileNotFoundError";
     exc_str := u "[Errno 2] No such file or directory: '" ++ path ++ u "'" |}.

Definition encode (s : str) : bytes :=
  map (fun c => match Byte.of_N c with
                | Some b => b
                | None => Byte.x3f
                end) s.

Definition decode (data : bytes) : PyException + str :=
  inr (map Byte.to_N data).

Definition is_some {A} (o : Datatypes.option A) : bool :=
  match o with Some _ => true | None => false end.

Definition open_text (w : FS) (path : str) : PyException + str :=
  match lookup path (files w) with
  | Some text => inr text
  | None => inl (no_such_file path)
  end.

Definition host : Host FS := {|
  os_path_expandvars := fun p => p;
  os_path_expanduser := fun p => p;
  os_path_abspath := fun p =>
    if startswith p (u "/") then p else u "/app/" ++ p;
  os_path_normpath := fun p => p;
  os_path_join := fun a b => a ++ u "/" ++ b;
  os_path_isfile := fun w p => is_some (lookup p (files w));
  os_path_exists := fun w p =>
    is_some (lookup p (files w)) || is_some (lookup p (directories w));
  os_listdir := fun w p =>
    match lookup p (directories w) with
    | Some names => inr names
    | None => inl (no_such_file p)
    end;
  read_binary := fun w p =>
    match open_text w p with
    | inr text => inr (encode text)
    | inl ex => inl ex
    end;
  decode_filesystemencoding := decode;
  read_text := open_text;
  write_text := fun w p text =>
    ({| files := (p, text) :: files w; directories := directories w |}, None);
  get_resource_folder_path := fun _ => inr (u "/plugin/resources")
|}.

Definition default_options : Options := {|
  nunit_xmlpath := DEFAULT_PATH;
  azure_run_title := u "Pytest results";
  napoleon := false;
  no_coverage_upload := false;
  no_docker_discovery := false
|}.

(** A session with one failed test out of three, and the coverage plugin. *)
Definition failing_session : Session := {|
  config := {| config_option := default_options;
               plugins := ["nunit"; "pytest_cov"]%string |};
  testsfailed := 1;
  testscollected := 3;
  shouldfail := PyBool false
|}.

(** The sentinel is there, the mount table is not. *)
Definition fs_without_mountinfo : FS := {|
  files := [(u "/.dockerenv", [])];
  directories := []
|}.

(** [/app] of the container is [/host/app] of the host; the coverage
    report is in [/app/coverage]. *)
Definition mountinfo_text : str := u "36 35 98:0 /host/app /app rw,noatime".

Definition fs_bind_mounted : FS := {|
  files := [(u "/.dockerenv", []);
            (u "/proc/1/mountinfo", mountinfo_text);
            (u "/app/coverage/coverage.xml", u "<coverage/>");
            (u "/plugin/resources/style.css", u "body {}");
            (u "/host/app/coverage/htmlcov/index.html",
             u "<html><head></head></html>")];
  directories := [(u "/app/coverage/htmlcov", [u "index.html"]);
                  (u "/host/app/coverage/htmlcov", [u "index.html"])]
|}.

(** The same, the stylesheet of the plugin missing. *)
Definition fs_without_stylesheet : FS := {|
  files := [(u "/app/coverage/coverage.xml", u "<coverage/>")];
  directories := [(u "/app/coverage/htmlcov", [u "index.html"])]
|}.

(** A title with single quotes. *)
Definition quoted_session : Session := {|
  config := {| config_option := {|
                 nunit_xmlpath := u "out/results.xml";
                 azure_run_title := u "Bob's 'nightly' run";
                 napoleon := false;
                 no_coverage_upload := true;
                 no_docker_discovery := false |};
               plugins := ["nunit"]%string |};
  testsfailed := 0;
  testscollected := 3;
  shouldfail := PyBool false
|}.

End Container.

(** ** The rest of the module *)

(** [a == b] on [str]. *)
Definition str_eq (a b : str) : bool :=
  if list_eq_dec N.eq_dec a b then true else false.

Definition is_coverage_skipped (line : str) : bool :=
  str_eq line coverage_skipped_line.

(** [s.find(sub)], with [None] for [-1]. *)
Fixpoint find (s sub : str) : Datatypes.option nat :=
  match s with
  | [] => if startswith [] sub then Some O else None
  | _ :: s' =>
      if startswith s sub then Some O else option_map S (find s' sub)
  end.

(** The fragment the inlining puts before [</head>], for the text of the
    stylesheet. *)
Definition style_fragment_of (css : str) : str :=
  [10%N] ++ u "<style>" ++ [10%N] ++ css ++ [10%N] ++ u "</style>" ++ [10%N].

(** *** [pytest_configure] *)

(** A [dict] with string keys, in the order of insertion. *)
Definition Dict (V : Type) : Type := list (string * V).

(** [d.get(k)] *)
Fixpoint dict_get {V} (d : Dict V) (k : string) : Datatypes.option V :=
  match d with
  | [] => None
  | (k', v) :: d' => if String.eqb k' k then Some v else dict_get d' k
  end.

(** [k in d] *)
Definition dict_contains {V} (d : Dict V) (k : string) : bool :=
  match dict_get d k with Some _ => true | None => false end.

(** [d[k] = v]: the value of a key that is there is replaced where it is, a
    new key comes last. *)
Fixpoint dict_set {V} (d : Dict V) (k : string) (v : V) : Dict V :=
  match d with
  | [] => [(k, v)]
  | (k', v') :: d' =>
      if String.eqb k' k then (k', v) :: d' else (k', v') :: dict_set d' k v
  end.

(** Truth value of [None] or a [str]. *)
Definition truthy_or_none (x : Datatypes.option str) : bool :=
  match x with
  | None => false
  | Some s => truthy s
  end.

Definition set_nunit_xmlpath (c : Config) (path : str) : Config :=
  {| config_option :=
       {| nunit_xmlpath := path;
          azure_run_title := azure_run_title (config_option c);
          napoleon := napoleon (config_option c);
          no_coverage_upload := no_coverage_upload (config_option c);
          no_docker_discovery := no_docker_discovery (config_option c) |};
     plugins := plugins c |}.

Section Configure.

Context {W : Type} (host : Host W).

(** [xmlpath] is what [config.getoption("--nunitxml")] gave, [cov_report]
    is [config.option.cov_report], from a report kind to its target or
    [None]; the result is the configuration and the dict afterwards. *)
Definition pytest_configure (xmlpath : Datatypes.option str) (c : Config)
  (cov_report : Dict (Datatypes.option str))
  : Config * Dict (Datatypes.option str) :=
  let c' :=
    if negb (truthy_or_none xmlpath) then set_nunit_xmlpath c DEFAULT_PATH
    else c in
  if has_plugin c "pytest_cov" then
    let cov_report1 :=
      dict_set cov_report "xml"
        (Some (os_path_normpath host
                 (os_path_abspath host
                    (os_path_expanduser host
                       (os_path_expandvars host DEFAULT_COVERAGE_PATH))))) in
    let cov_report2 :=
      if negb (dict_contains cov_report1 "html")
      then dict_set cov_report1 "html" None
      else cov_report1 in
    (c', cov_report2)
  else (c', cov_report).

End Configure.

(** *** [get_resource_folder_path] *)

Definition SLASH : char := 47%N.

(** The string from its first character that fails [p]. *)
Fixpoint dropwhile (p : char -> bool) (s : str) : str :=
  match s with
  | [] => []
  | c :: s' => if p c then dropwhile p s' else s
  end.

(** [s.rstrip('/')] *)
Definition rstrip_slash (s : str) : str :=
  rev (dropwhile (fun c => (c =? SLASH)%N) (rev s)).

(** [os.path.dirname] of [posixpath]: the path up to and with its last
    slash, then without the slashes it ends on unless it is made of
    slashes only. *)
Definition posix_dirname (p : str) : str :=
  let head := rev (dropwhile (fun c => negb (c =? SLASH)%N) (rev p)) in
  if truthy head && negb (forallb (fun c => (c =? SLASH)%N) head)
  then rstrip_slash head
  else head.

Definition resources_not_found : PyException :=
  {| exc_class := "RuntimeError";
     exc_str := u "Could not find the path to resources folder." |}.

Section ResourceFolder.

Context {W : Type} (host : Host W) (os_path_dirname : str -> str).

(** The loop of [get_resource_folder_path] from the value [ancestor], on
    the file system [w]; [fuel] bounds the number of times the condition
    of the [while] is tested, and [None] is a loop that has not ended
    within it. *)
Fixpoint resource_folder_from (fuel : nat) (w : W) (ancestor : str)
  : Datatypes.option (PyException + str) :=
  let resources_folder_name := u "resources" in
  match fuel with
  | O => None
  | S fuel' =>
      if negb (os_path_exists host w
                 (os_path_join host ancestor resources_folder_name)) then
        let ancestor' := os_path_dirname ancestor in
        if negb (truthy ancestor') || str_eq ancestor' (u "/") then
          if os_path_exists host w resources_folder_name
          then Some (inr (os_path_join host ancestor' resources_folder_name))
          else Some (inl resources_not_found)
        else resource_folder_from fuel' w ancestor'
      else Some (inr (os_path_join host ancestor resources_folder_name))
  end.

End ResourceFolder.

(** *** More of the container *)

Module Plugin.


(** A report directory that lists one page. *)
Definition fs_report_page : Container.FS := {|
  Container.files :=
    [(u "/plugin/resources/style.css", u "body {}");
     (u "/app/coverage/htmlcov/index.html",
      u "<html><head><title>Coverage</title></head><body></body></html>")];
  Container.directories := [(u "/app/coverage/htmlcov", [u "index.html"])]
|}.

(** A report directory that lists no page. *)
Definition fs_report_data : Container.FS := {|
  Container.files :=
    [(u "/plugin/resources/style.css", u "body {}");
     (u "/app/coverage/htmlcov/status.json", u "{}")];
  Container.directories :=
    [(u "/app/coverage/htmlcov", [u "status.json"; u "html"; u "page.HTML"])]
|}.

(** A session that passed, without the coverage plugin. *)
Definition passing_session : Session := {|
  config := {| config_option := Container.default_options;
               plugins := ["nunit"]%string |};
  testsfailed := 0;
  testscollected := 3;
  shouldfail := PyBool false
|}.

(** The same with [--no-docker-discovery], and the coverage plugin. *)
Definition undiscovering_session : Session := {|
  config := {| config_option := {|
                 nunit_xmlpath := DEFAULT_PATH;
                 azure_run_title := u "Pytest results";
                 napoleon := false;
                 no_coverage_upload := false;
                 no_docker_discovery := true |};
               plugins := ["nunit"; "pytest_cov"]%string |};
  testsfailed := 0;
  testscollected := 3;
  shouldfail := PyBool false
|}.

(** The coverage reports asked for on the command line: one to the
    terminal, an [xml] one to a file of the user's. *)
Definition cov_report_asked : Dict (Datatypes.option str) :=
  [("term"%string, None); ("xml"%string, Some (u "mine.xml"))].

(** Neither a sentinel nor a coverage report. *)
Definition fs_plain : Container.FS := {|
  Container.files := [];
  Container.directories := []
|}.

End Plugin.

(** * Properties *)

(** ** Strings *)

Lemma split_not_nil (sep : char) (s : str) : split sep s <> [].
Proof.
  destruct s as [|c s]; simpl; [discriminate|].
  destruct (c =? sep)%N; [discriminate|].
  destruct (split sep s); discriminate.
Qed.

(** The fields of a line, joined by the separator, are the line. *)
Lemma join_split (sep : char) (s : str) : join [sep] (split sep s) = s.
Proof.
  induction s as [|c s IH]; [reflexivity|].
  simpl split. destruct (N.eqb_spec c sep) as [->|Hne].
  - pose proof (split_not_nil sep s) as Hnil.
    destruct (split sep s) as [|w ws]; [contradiction|].
    change (join [sep] ([] :: w :: ws)) with (sep :: join [sep] (w :: ws)).
    now rewrite IH.
  - pose proof (split_not_nil sep s) as Hnil.
    destruct (split sep s) as [|w ws]; [contradiction|].
    destruct ws as [|w' ws]; simpl in *; now rewrite <- IH.
Qed.

(** No field contains the separator. *)
Lemma split_fields_free (sep : char) (s : str) :
  Forall (fun w => ~ In sep w) (split sep s).
Proof.
  induction s as [|c s IH]; simpl.
  - constructor; [intros []|constructor].
  - destruct (N.eqb_spec c sep) as [->|Hne].
    + constructor; [intros []|assumption].
    + destruct (split sep s) as [|w ws]; [repeat constructor; intros [?|[]]; congruence|].
      inversion IH; subst. constructor; [|assumption].
      intros [?|?]; [congruence|contradiction].
Qed.

(** One more field than separators. *)
Lemma split_length (sep : char) (s : str) :
  len (split sep s) = S (count_occ N.eq_dec s sep).
Proof.
  unfold len. induction s as [|c s IH]; [reflexivity|].
  simpl split. simpl count_occ.
  destruct (N.eqb_spec c sep) as [->|Hne].
  - destruct (N.eq_dec sep sep); [|congruence]. simpl. now rewrite IH.
  - destruct (N.eq_dec c sep); [congruence|].
    pose proof (split_not_nil sep s) as Hnil.
    destruct (split sep s) as [|w ws]; [contradiction|exact IH].
Qed.

Lemma startswith_nil (s : str) : startswith s [] = true.
Proof. reflexivity. Qed.

Lemma startswith_app (p s : str) : startswith (p ++ s) p = true.
Proof.
  induction p as [|c p IH]; simpl; [reflexivity|].
  now rewrite N.eqb_refl, IH.
Qed.

(** [startswith] is the prefix relation. *)
Lemma startswith_spec (s p : str) :
  startswith s p = true <-> exists rest, s = p ++ rest.
Proof.
  split.
  - revert s. induction p as [|c p IH]; intros s H.
    + now exists s.
    + destruct s as [|d s]; simpl in H; [discriminate|].
      apply andb_prop in H as [Hc Hp]. apply N.eqb_eq in Hc. subst d.
      destruct (IH _ Hp) as [rest ->]. now exists rest.
  - intros [rest ->]. apply startswith_app.
Qed.

Lemma slice_from_app (p s : str) : slice_from (len p) (p ++ s) = s.
Proof. unfold slice_from, len. induction p; simpl; auto. Qed.

(** A text that is a line without boundary, a line feed and a rest. *)
Lemma splitlines_from_line (l rest cur : str) :
  existsb is_linebreak l = false ->
  splitlines_from cur (l ++ 10%N :: rest)
  = (rev cur ++ l) :: splitlines_from [] rest.
Proof.
  revert cur. induction l as [|c l IH]; intros cur H.
  - simpl. rewrite app_nil_r. destruct rest; reflexivity.
  - simpl in H. apply orb_false_iff in H as [Hc Hl].
    simpl. rewrite Hc, (IH _ Hl). simpl. now rewrite <- app_assoc.
Qed.

Lemma splitlines_line (l rest : str) :
  existsb is_linebreak l = false ->
  splitlines (l ++ 10%N :: rest) = l :: splitlines rest.
Proof. intros H. unfold splitlines. now rewrite splitlines_from_line. Qed.

(** Removing the single quotes by [replace]. *)
Lemma replace_quote (s : str) : replace [QUOTE] [] s = without_quotes s.
Proof.
  unfold replace. induction s as [|c s IH]; [reflexivity|].
  simpl. rewrite andb_true_r.
  destruct (c =? QUOTE)%N; simpl; now rewrite IH.
Qed.

Lemma without_quotes_free (s : str) : ~ In QUOTE (without_quotes s).
Proof.
  unfold without_quotes. intros H. apply filter_In in H as [_ H].
  now rewrite N.eqb_refl in H.
Qed.

(** ** The loop of [apply_docker_mappings] is [remap] after [parse] *)

Lemma docker_mapping_step_entry (path line : str) :
  docker_mapping_step path line
  = match parse_line line with
    | Some e => remap_entry path e
    | None => path
    end.
Proof.
  unfold docker_mapping_step, parse_line, remap_entry.
  destruct (len (split SPACE line) <? 5)%nat; reflexivity.
Qed.

Lemma fold_mapping_step (lines : list str) (path : str) :
  fold_left docker_mapping_step lines path = remap (parse_lines lines) path.
Proof.
  revert path. induction lines as [|l ls IH]; intros path; [reflexivity|].
  simpl. rewrite IH, docker_mapping_step_entry.
  destruct (parse_line l); reflexivity.
Qed.

Lemma apply_docker_mappings_remap (mountinfo path : str) :
  apply_docker_mappings mountinfo path = remap (parse mountinfo) path.
Proof. apply fold_mapping_step. Qed.

Lemma parse_lines_app (ls1 ls2 : list str) :
  parse_lines (ls1 ++ ls2) = parse_lines ls1 ++ parse_lines ls2.
Proof.
  induction ls1 as [|l ls IH]; [reflexivity|].
  simpl. destruct (parse_line l); simpl; now rewrite IH.
Qed.

Lemma remap_without_match (entries : list MountEntry) (path : str) :
  scan_matches entries path = false -> remap entries path = path.
Proof.
  revert path. induction entries as [|e es IH]; intros path H; [reflexivity|].
  simpl in H. apply orb_false_iff in H as [He Hes].
  unfold remap in *. simpl.
  unfold remap_entry in *. rewrite He in *. now apply IH.
Qed.

(** When nothing matches the path stays what it is, so the tests of a scan
    without a match are all on the given path. *)
Lemma scan_matches_existsb (entries : list MountEntry) (path : str) :
  scan_matches entries path
  = false <->
  existsb (fun e => startswith path (container_mount_point e)) entries = false.
Proof.
  induction entries as [|e es IH]; simpl; [tauto|].
  unfold remap_entry.
  destruct (startswith path (container_mount_point e)); simpl; [split; discriminate|exact IH].
Qed.

(** ** Running the hooks *)

Section Runs.

Context {W : Type} (host : Host W).

Lemma silent_ret {A} (a : A) : silent (@ret W A a).
Proof. intros [f o]. reflexivity. Qed.

Lemma silent_attempt {A} (f : W -> PyException + A) : silent (attempt f).
Proof. intros [g o]. reflexivity. Qed.

Lemma silent_update (f : W -> W * Datatypes.option PyException) :
  silent (update f).
Proof. intros [g o]. unfold update. simpl. destruct (f g). reflexivity. Qed.

Lemma silent_bind {A B} (m : IO W A) (k : A -> IO W B) :
  silent m -> (forall a, silent (k a)) -> silent (bind m k).
Proof.
  intros Hm Hk [f o]. unfold bind. rewrite (Hm {| fs := f; stdout := o |}).
  simpl. pose proof (Hm (start f)) as Hs. simpl in Hs. 
  destruct (m (start f)) as [[f1 o1] [ex|a]]; simpl in *.
  - reflexivity.
  - injection Hs as ->. rewrite (Hk a {| fs := f1; stdout := o |}). reflexivity.
Qed.

Lemma silent_for_each {A} (xs : list A) (body : A -> IO W unit) :
  (forall x, silent (body x)) -> silent (for_each xs body).
Proof.
  intros Hb. induction xs as [|x xs IH]; simpl.
  - apply silent_ret.
  - apply silent_bind; auto.
Qed.

Lemma silent_inline (reportdir : str) :
  silent (inline_css_into_each_html_report_file host reportdir).
Proof.
  unfold inline_css_into_each_html_report_file, get_resource_file_content.
  repeat first [ apply silent_bind | intro | apply silent_attempt | apply silent_for_each | apply silent_update | apply silent_ret ].
  destruct (endswith _ _); repeat first [ apply silent_bind | intro | apply silent_attempt | apply silent_for_each | apply silent_update | apply silent_ret ].
Qed.

Lemma format_inline_failure (ex : PyException) :
  format (u "##vso[task.logissue type=warning;]{0}{1}")
    [u "Failed to inline CSS styles in coverage reports. Error: "; exc_str ex]
  = log_warning_directive (inline_failure_message ex).
Proof. cbn. rewrite app_nil_r. reflexivity. Qed.

Lemma try_to_inline_run (reportdir : str) (w : World W) :
  try_to_inline_css_into_each_html_report_file host reportdir w
  = ({| fs := fst (inlining host reportdir (fs w));
        stdout := stdout w ++ inlining_lines host reportdir (fs w) |}, inr tt).
Proof.
  unfold try_to_inline_css_into_each_html_report_file, try_except, inlining_lines, inlining.
  rewrite (silent_inline reportdir w). cbv zeta.
  destruct (inline_css_into_each_html_report_file host reportdir (start (fs w)))
    as [w1 [ex|[]]]; cbn [fst snd fs stdout].
  - unfold print. cbn [fs stdout]. now rewrite format_inline_failure.
  - now rewrite app_nil_r.
Qed.

Lemma format_publish_results (path title : str) :
  format
    (u "##vso[results.publish type={2};runTitle='{1}';publishRunAttachments=true;]{0}")
    [path; title; u "NUnit"]
  = publish_results_directive title path.
Proof. cbn. rewrite app_nil_r. reflexivity. Qed.

Lemma format_log_error (failed collected : str) :
  format
    (u "##vso[task.logissue type=error;]{0} test(s) failed, {1} test(s) collected.")
    [failed; collected]
  = u "##vso[task.logissue type=error;]" ++ failed
    ++ u " test(s) failed, " ++ collected ++ u " test(s) collected.".
Proof. reflexivity. Qed.

Lemma format_publish_coverage (covpath reportdir : str) :
  format
    (u "##vso[codecoverage.publish codecoveragetool=Cobertura;summaryfile={0};reportdirectory={1};]")
    [covpath; reportdir]
  = publish_coverage_directive covpath reportdir.
Proof. reflexivity. Qed.

Lemma format_log_warning (message : str) :
  format (u "##vso[task.logissue type=warning;]{0}") [message]
  = log_warning_directive message.
Proof. cbn. rewrite app_nil_r. reflexivity. Qed.

Lemma print_run (line : str) (w : World W) :
  print line w = ({| fs := fs w; stdout := stdout w ++ [line] |}, inr tt).
Proof. reflexivity. Qed.

Lemma pytest_sessionfinish_run (session : Session) (exitstatus : Z)
  (w : World W) :
  pytest_sessionfinish host session exitstatus w
  = sessionfinish_result host session exitstatus w.
Proof.
  unfold pytest_sessionfinish, sessionfinish_result, containerized, mount_table.
  rewrite format_log_warning, format_log_error.
  fold (log_error_directive (testsfailed session) (testscollected session)).
  fold (tests_failed session exitstatus).
  fold (resolve host DEFAULT_COVERAGE_PATH).
  fold (resolve host (nunit_xmlpath (config_option (config session)))).
  match goal with
  | |- bind _ (fun _ => bind _ ?k) w = _ => set (tail := k)
  end.
  assert (Htail : forall mountinfo w',
             tail mountinfo w' = finished host session exitstatus mountinfo w').
  { intros mountinfo [f o]. subst tail. cbv beta.
    rewrite format_publish_results, format_publish_coverage.
    change (u "'") with [QUOTE]. rewrite replace_quote.
    unfold finished, session_lines, results_lines, failure_lines,
      coverage_lines, fs_after_session, coverage_enabled, bind, ask, ret.
    cbn [fs stdout].
    set (opt := config_option (config session)).
    destruct (no_docker_discovery opt), (no_coverage_upload opt),
      (has_plugin (config session) "pytest_cov"),
      (tests_failed session exitstatus);
      cbn [negb andb];
      repeat (first [rewrite print_run | rewrite try_to_inline_run];
              cbn [fs stdout]);
      try (destruct (os_path_exists host f (resolve host DEFAULT_COVERAGE_PATH));
           repeat (first [rewrite print_run | rewrite try_to_inline_run];
                   cbn [fs stdout]));
      repeat rewrite <- app_assoc; reflexivity. }
  clearbody tail.
  destruct (no_docker_discovery (config_option (config session)));
    cbn [negb andb].
  - unfold bind, ret. apply Htail.
  - unfold bind at 1, ask. cbn [fs].
    destruct (os_path_isfile host (fs w) (u "/.dockerenv")).
    + unfold bind, attempt, of_result, ret.
      destruct (read_binary host (fs w) (u "/proc/1/mountinfo")) as [ex|data];
        [reflexivity|].
      destruct (decode_filesystemencoding host data) as [ex|text];
        [reflexivity|apply Htail].
    + unfold bind, ret. apply Htail.
Qed.
Lemma sessionfinish_result_detection (session : Session) (exitstatus : Z)
  (w : World W) :
  sessionfinish_result host session exitstatus w
  = match detection host session (fs w) with
    | inl ex => (w, inl ex)
    | inr mountinfo => finished host session exitstatus mountinfo w
    end.
Proof.
  unfold sessionfinish_result, detection.
  destruct (containerized host session (fs w)); [|reflexivity].
  destruct (mount_table host (fs w)); reflexivity.
Qed.

(** The run of the hook by its detection step. *)
Lemma pytest_sessionfinish_detection (session : Session) (exitstatus : Z)
  (w : World W) :
  pytest_sessionfinish host session exitstatus w
  = match detection host session (fs w) with
    | inl ex => (w, inl ex)
    | inr mountinfo => finished host session exitstatus mountinfo w
    end.
Proof.
  rewrite pytest_sessionfinish_run. apply sessionfinish_result_detection.
Qed.

End Runs.

(** ** The remapping *)

(** C3: the scan goes through the entries in order and every entry is tested
    on the path as the earlier ones left it.  For a mount table that parses
    to [("/host/a","/mnt/a"); ("/host/b","/host/a/sub")] and the path
    [/mnt/a/sub/file.xml], the first entry gives [/host/a/sub/file.xml], the
    second then matches and gives [/host/b/file.xml], which is what
    [apply_docker_mappings] returns. *)
Theorem remap_chains_across_entries (mountinfo : str) :
  parse mountinfo = [entry "/host/a" "/mnt/a"; entry "/host/b" "/host/a/sub"] ->
  (forall e es path, remap (e :: es) path = remap es (remap_entry path e))
  /\ remap_entry (u "/mnt/a/sub/file.xml") (entry "/host/a" "/mnt/a")
     = u "/host/a/sub/file.xml"
  /\ startswith (u "/host/a/sub/file.xml") (u "/host/a/sub") = true
  /\ remap_entry (u "/host/a/sub/file.xml") (entry "/host/b" "/host/a/sub")
     = u "/host/b/file.xml"
  /\ remap [entry "/host/a" "/mnt/a"; entry "/host/b" "/host/a/sub"]
       (u "/mnt/a/sub/file.xml") = u "/host/b/file.xml"
  /\ apply_docker_mappings mountinfo (u "/mnt/a/sub/file.xml")
     = u "/host/b/file.xml".
Proof.
  intros Hparse. rewrite apply_docker_mappings_remap, Hparse.
  repeat split; reflexivity.
Qed.

Lemma remap_chains_across_entries_witness :
  apply_docker_mappings
    (u "36 35 98:0 /host/a /mnt/a rw" ++ 10%N :: u "37 35 98:0 /host/b /host/a/sub rw")
    (u "/mnt/a/sub/file.xml")
  = u "/host/b/file.xml".
Proof.
  apply (remap_chains_across_entries
           (u "36 35 98:0 /host/a /mnt/a rw" ++ 10%N
              :: u "37 35 98:0 /host/b /host/a/sub rw")).
  vm_compute. reflexivity.
Defined.

(** C4: the mount table is read line by line; a line is cut at every single
    space; a line of fewer than five fields gives no entry and a line of
    five or more gives the entry (field 3, field 4) as (host, container);
    the entries come in the order of the lines, each line on its own; and
    [apply_docker_mappings] is the remapping over exactly these entries.
    Every function involved is total, so no text makes the parse fail. *)
Theorem parse_extracts_fields_in_line_order (raw_text : str) :
  (forall path,
      apply_docker_mappings raw_text path = remap (parse raw_text) path)
  /\ parse raw_text
     = flat_map (fun line => opt_to_list (parse_line line)) (splitlines raw_text)
  /\ (forall line,
         let words := split SPACE line in
         join [SPACE] words = line
         /\ Forall (fun w => ~ In SPACE w) words
         /\ ((len words < 5)%nat -> parse_line line = None)
         /\ ((5 <= len words)%nat ->
             exists host container,
               nth_error words 3 = Some host
               /\ nth_error words 4 = Some container
               /\ parse_line line
                  = Some {| host_mount_point := host;
                            container_mount_point := container |}))
  /\ (forall lines1 lines2,
         parse_lines (lines1 ++ lines2)
         = parse_lines lines1 ++ parse_lines lines2)
  /\ (forall line rest,
         existsb is_linebreak line = false ->
         parse (line ++ 10%N :: rest)
         = opt_to_list (parse_line line) ++ parse rest).
Proof.
  split; [intros; apply apply_docker_mappings_remap|].
  split.
  { unfold parse. induction (splitlines raw_text) as [|l ls IH]; [reflexivity|].
    simpl. rewrite IH. destruct (parse_line l); reflexivity. }
  split.
  { intros line words. subst words.
    split; [apply join_split|]. split; [apply split_fields_free|].
    unfold parse_line. split.
    - intros H. apply Nat.ltb_lt in H. now rewrite H.
    - intros H. pose proof H as H'. apply Nat.ltb_ge in H'. rewrite H'.
      unfold len in H.
      destruct (split SPACE line) as [|w0 [|w1 [|w2 [|w3 [|w4 ws]]]]];
        simpl in H; try lia.
      exists w3, w4. repeat split. }
  split; [apply parse_lines_app|].
  intros line rest H. unfold parse. rewrite (splitlines_line _ _ H).
  simpl. destruct (parse_line line); reflexivity.
Qed.

Lemma parse_extracts_fields_in_line_order_witness :
  parse (u "36 35 98:0 /host/a /mnt/a rw" ++ 10%N :: u "too short" ++ 10%N
           :: u "37 35 98:0 /host/b /host/a/sub rw")
  = [entry "/host/a" "/mnt/a"] ++ [] ++ [entry "/host/b" "/host/a/sub"].
Proof.
  set (l1 := u "36 35 98:0 /host/a /mnt/a rw").
  set (l2 := u "too short").
  set (l3 := u "37 35 98:0 /host/b /host/a/sub rw").
  destruct (parse_extracts_fields_in_line_order []) as (_ & _ & Hline & _ & Htext).
  rewrite (Htext l1 (l2 ++ 10%N :: l3)) by reflexivity.
  rewrite (Htext l2 l3) by reflexivity.
  destruct (Hline l2) as (_ & _ & Hshort & _).
  rewrite Hshort by (vm_compute; lia).
  reflexivity.
Defined.

(** C5: when no step of the scan finds the container mount point of its
    entry to be a prefix of the path as it then is, the path comes back
    unchanged, from [remap] and from [apply_docker_mappings]; with no entry
    at all the remapping is the identity, [remap [] "/any/path"] being
    ["/any/path"]. *)
Theorem remap_unchanged_without_match :
  (forall entries path,
      scan_matches entries path = false -> remap entries path = path)
  /\ (forall mountinfo path,
         scan_matches (parse mountinfo) path = false ->
         apply_docker_mappings mountinfo path = path)
  /\ (forall path, remap [] path = path)
  /\ remap [] (u "/any/path") = u "/any/path"
  /\ (forall path, apply_docker_mappings [] path = path).
Proof.
  split; [exact remap_without_match|].
  split.
  { intros mountinfo path H. rewrite apply_docker_mappings_remap.
    now apply remap_without_match. }
  repeat split; reflexivity.
Qed.

Lemma remap_unchanged_without_match_witness :
  apply_docker_mappings (u "36 35 98:0 /host/a /mnt/a rw") (u "/srv/file.xml")
  = u "/srv/file.xml".
Proof.
  apply (proj1 (proj2 remap_unchanged_without_match)).
  vm_compute. reflexivity.
Defined.

(** C6: when the result of the remapping starts with the container mount
    point of no entry, remapping it again gives it back:
    [remap entries (remap entries path) = remap entries path], and the same
    for [apply_docker_mappings] with the entries of its mount table. *)
Theorem remap_idempotent_when_settled :
  (forall entries path,
      existsb (fun e => startswith (remap entries path)
                          (container_mount_point e)) entries = false ->
      remap entries (remap entries path) = remap entries path)
  /\ (forall mountinfo path,
         existsb (fun e => startswith (apply_docker_mappings mountinfo path)
                             (container_mount_point e)) (parse mountinfo)
         = false ->
         apply_docker_mappings mountinfo (apply_docker_mappings mountinfo path)
         = apply_docker_mappings mountinfo path).
Proof.
  split.
  - intros entries path H. apply remap_without_match.
    now apply scan_matches_existsb.
  - intros mountinfo path H.
    rewrite (apply_docker_mappings_remap mountinfo (apply_docker_mappings _ _)).
    apply remap_without_match. now apply scan_matches_existsb.
Qed.

Lemma remap_idempotent_when_settled_witness :
  apply_docker_mappings (u "36 35 98:0 /host/a /mnt/a rw")
    (apply_docker_mappings (u "36 35 98:0 /host/a /mnt/a rw")
       (u "/mnt/a/file.xml"))
  = apply_docker_mappings (u "36 35 98:0 /host/a /mnt/a rw")
      (u "/mnt/a/file.xml").
Proof.
  apply (proj2 remap_idempotent_when_settled).
  vm_compute. reflexivity.
Defined.

(** Without the condition the remapping need not settle: an entry whose host
    mount point lies under its container mount point applies again. *)
Lemma remap_not_idempotent_in_general :
  remap [entry "/a/b" "/a"] (u "/a/x") = u "/a/b/x"
  /\ remap [entry "/a/b" "/a"] (u "/a/b/x") = u "/a/b/b/x".
Proof. split; reflexivity. Qed.

(** ** The lines of the session hook *)

Section Lines.

Context {W : Type} (host : Host W).

(** An empty mount table maps nothing, so the test [if mountinfo:] changes
    no result. *)
Lemma map_if_mounted_some (text path : str) :
  map_if_mounted (Some text) path = apply_docker_mappings text path.
Proof. destruct text; reflexivity. Qed.

Lemma tests_failed_iff (session : Session) (exitstatus : Z) :
  tests_failed session exitstatus = true
  <-> (exitstatus <> 0 /\ testsfailed session > 0
       /\ truth (shouldfail session) = false)%Z.
Proof.
  unfold tests_failed.
  rewrite !andb_true_iff, !negb_true_iff, Z.eqb_neq, Z.gtb_gt. tauto.
Qed.

Lemma filter_error_results (session : Session) mountinfo :
  filter is_log_error (results_lines host session mountinfo) = [].
Proof.
  unfold results_lines.
  destruct (no_docker_discovery _); reflexivity.
Qed.

Lemma filter_error_failure (session : Session) (exitstatus : Z) :
  filter is_log_error (failure_lines session exitstatus)
  = failure_lines session exitstatus.
Proof.
  unfold failure_lines. destruct (tests_failed _ _); reflexivity.
Qed.

Lemma filter_error_coverage (session : Session) mountinfo (w : W) :
  filter is_log_error (coverage_lines host session mountinfo w) = [].
Proof.
  unfold coverage_lines, inlining_lines.
  destruct (coverage_enabled session); [|reflexivity].
  destruct (os_path_exists _ _ _); [|reflexivity].
  destruct (snd (inlining _ _ _)); reflexivity.
Qed.

Lemma filter_error_session (session : Session) (exitstatus : Z) mountinfo
  (w : W) :
  filter is_log_error (session_lines host session exitstatus mountinfo w)
  = failure_lines session exitstatus.
Proof.
  unfold session_lines.
  rewrite !filter_app, filter_error_results, filter_error_failure,
    filter_error_coverage.
  simpl. apply app_nil_r.
Qed.

Lemma filter_publish_results (session : Session) mountinfo :
  filter is_publish_results (results_lines host session mountinfo)
  = if no_docker_discovery (config_option (config session)) then []
    else results_lines host session mountinfo.
Proof.
  unfold results_lines.
  destruct (no_docker_discovery _); reflexivity.
Qed.

Lemma filter_publish_failure (session : Session) (exitstatus : Z) :
  filter is_publish_results (failure_lines session exitstatus) = [].
Proof.
  unfold failure_lines. destruct (tests_failed _ _); reflexivity.
Qed.

Lemma filter_publish_coverage (session : Session) mountinfo (w : W) :
  filter is_publish_results (coverage_lines host session mountinfo w) = [].
Proof.
  unfold coverage_lines, inlining_lines.
  destruct (coverage_enabled session); [|reflexivity].
  destruct (os_path_exists _ _ _); [|reflexivity].
  destruct (snd (inlining _ _ _)); reflexivity.
Qed.

Lemma filter_publish_session (session : Session) (exitstatus : Z) mountinfo
  (w : W) :
  filter is_publish_results (session_lines host session exitstatus mountinfo w)
  = if no_docker_discovery (config_option (config session)) then []
    else results_lines host session mountinfo.
Proof.
  unfold session_lines.
  rewrite !filter_app, filter_publish_results, filter_publish_failure,
    filter_publish_coverage.
  simpl. apply app_nil_r.
Qed.

End Lines.

(** ** The end-of-session hook *)

Section SessionFinish.

Context {W : Type} (host : Host W).

(** C1, as the code has it: a negative detection (discovery disabled, or no
    regular file [/.dockerenv]) never fails and never asks for the mount
    table, the hook going on with unmapped paths; but once the sentinel is
    found with discovery enabled, an exception of reading
    [/proc/1/mountinfo] or of decoding it leaves the hook as it is, before
    anything was printed. *)
Theorem mountinfo_failure_propagates (session : Session) (exitstatus : Z)
  (w : World W) :
  (containerized host session (fs w) = false ->
   pytest_sessionfinish host session exitstatus w
   = finished host session exitstatus None w)
  /\ (containerized host session (fs w) = true ->
      forall ex,
        read_binary host (fs w) (u "/proc/1/mountinfo") = inl ex ->
        pytest_sessionfinish host session exitstatus w = (w, inl ex))
  /\ (containerized host session (fs w) = true ->
      forall data ex,
        read_binary host (fs w) (u "/proc/1/mountinfo") = inr data ->
        decode_filesystemencoding host data = inl ex ->
        pytest_sessionfinish host session exitstatus w = (w, inl ex))
  /\ (containerized host session (fs w) = true ->
      forall data text,
        read_binary host (fs w) (u "/proc/1/mountinfo") = inr data ->
        decode_filesystemencoding host data = inr text ->
        pytest_sessionfinish host session exitstatus w
        = finished host session exitstatus (Some text) w).
Proof.
  rewrite pytest_sessionfinish_run. unfold sessionfinish_result, mount_table.
  repeat split; intros Hc; rewrite Hc; try reflexivity.
  - intros ex ->. reflexivity.
  - intros data ex -> ->. reflexivity.
  - intros data text -> ->. reflexivity.
Qed.

(** C7, as the code has it: a hook that returns has printed the error
    directive [##vso[task.logissue type=error;]<failed> test(s) failed,
    <collected> test(s) collected.] once when the exit status is not zero,
    the count of failed tests is positive and [session.shouldfail] is
    false, and not at all otherwise; the directive carries the two counts
    of the session.  A hook that raises, which only the reading of the
    mount table makes it do, has printed nothing. *)
Theorem error_directive_when_hook_returns (session : Session)
  (exitstatus : Z) (w : W) :
  let r := pytest_sessionfinish host session exitstatus (start w) in
  (tests_failed session exitstatus = true
   <-> (exitstatus <> 0 /\ testsfailed session > 0
        /\ truth (shouldfail session) = false)%Z)
  /\ (returns r = true ->
      (count is_log_error (printed r) = 1
       <-> tests_failed session exitstatus = true)
      /\ filter is_log_error (printed r)
         = if tests_failed session exitstatus
           then [log_error_directive (testsfailed session)
                   (testscollected session)]
           else [])
  /\ (returns r = false ->
      printed r = []
      /\ exists ex, detection host session w = inl ex /\ outcome r = inl ex).
Proof.
  intros r. split; [apply tests_failed_iff|].
  subst r. rewrite pytest_sessionfinish_detection. cbn [fs start].
  destruct (detection host session w) as [ex|mountinfo].
  - split; [discriminate|]. intros _. split; [reflexivity|now exists ex].
  - split; [|discriminate]. intros _.
    unfold count, printed, finished. cbn [fst stdout start app].
    rewrite filter_error_session. unfold failure_lines.
    destruct (tests_failed session exitstatus); simpl; split;
      try reflexivity; split; congruence.
Qed.

(** C8: the only line of the hook that opens with [##vso[results.publish]
    is [##vso[results.publish type=NUnit;runTitle='<title>';publishRunAttachments=true;]<path>],
    printed first and once when discovery is enabled and the hook returns;
    [<title>] is the configured title with every single quote taken out
    and nothing put in its place, [<path>] is the resolved result path,
    mapped through the mount table when the process is containerized.
    With discovery disabled the hook returns, prints no such directive and
    prints the plain line instead. *)
Theorem publish_results_directive_form (session : Session) (exitstatus : Z)
  (w : W) :
  let opt := config_option (config session) in
  let r := pytest_sessionfinish host session exitstatus (start w) in
  let title := replace (u "'") [] (azure_run_title opt) in
  let path := resolve host (nunit_xmlpath opt) in
  (title = without_quotes (azure_run_title opt) /\ ~ In QUOTE title)
  /\ (no_docker_discovery opt = true ->
      returns r = true
      /\ filter is_publish_results (printed r) = []
      /\ hd_error (printed r) = Some results_skipped_line)
  /\ (no_docker_discovery opt = false ->
      os_path_isfile host w (u "/.dockerenv") = false ->
      returns r = true
      /\ filter is_publish_results (printed r)
         = [publish_results_directive title path]
      /\ hd_error (printed r) = Some (publish_results_directive title path))
  /\ (no_docker_discovery opt = false ->
      os_path_isfile host w (u "/.dockerenv") = true ->
      forall mountinfo,
        mount_table host w = inr mountinfo ->
        returns r = true
        /\ filter is_publish_results (printed r)
           = [publish_results_directive title
                (apply_docker_mappings mountinfo path)]
        /\ hd_error (printed r)
           = Some (publish_results_directive title
                     (apply_docker_mappings mountinfo path)))
  /\ (forall line,
         In line (printed r) -> is_publish_results line = true ->
         exists p,
           line = publish_results_directive title p
           /\ (p = path \/ exists mountinfo,
                  mount_table host w = inr mountinfo
                  /\ p = apply_docker_mappings mountinfo path)).
Proof.
  intros opt r title path.
  assert (Htitle : title = without_quotes (azure_run_title opt))
    by apply replace_quote.
  split; [split; [exact Htitle|rewrite Htitle; apply without_quotes_free]|].
  subst r. rewrite pytest_sessionfinish_run.
  unfold sessionfinish_result, containerized. fold opt. cbn [fs start].
  unfold returns, printed, finished. rewrite Htitle.
  split.
  { intros Hd. rewrite Hd. cbn [negb andb fst snd stdout start app].
    rewrite filter_publish_session.
    unfold session_lines, results_lines. fold opt. rewrite Hd.
    repeat split; reflexivity. }
  split.
  { intros Hd Hf. rewrite Hd, Hf. cbn [negb andb fst snd stdout start app].
    rewrite filter_publish_session.
    unfold session_lines, results_lines. fold opt. rewrite Hd.
    repeat split; reflexivity. }
  split.
  { intros Hd Hf mountinfo Hm. rewrite Hd, Hf, Hm.
    cbn [negb andb fst snd stdout start app].
    rewrite filter_publish_session.
    unfold session_lines, results_lines. fold opt.
    rewrite Hd, map_if_mounted_some.
    repeat split; reflexivity. }
  intros line Hin Hpub.
  assert (Hf : In line (filter is_publish_results
    (stdout (fst (if negb (no_docker_discovery opt)
                     && os_path_isfile host w (u "/.dockerenv")
       then match mount_table host w with
            | inl ex => (start w, inl ex)
            | inr text => finished host session exitstatus (Some text) (start w)
            end
       else finished host session exitstatus None (start w)))))).
  { apply filter_In. split; assumption. }
  clear Hin Hpub. revert Hf.
  destruct (negb (no_docker_discovery opt)
            && os_path_isfile host w (u "/.dockerenv")).
  + destruct (mount_table host w) as [ex|text] eqn:Hm; [intros []|].
    unfold finished. cbn [fst stdout start app].
    rewrite filter_publish_session. unfold results_lines. fold opt.
    destruct (no_docker_discovery opt); [intros []|].
    intros [<-|[]]. eexists. split; [reflexivity|].
    right. exists text. split; [reflexivity|apply map_if_mounted_some].
  + unfold finished. cbn [fst stdout start app].
    rewrite filter_publish_session. unfold results_lines. fold opt.
    destruct (no_docker_discovery opt); [intros []|].
    intros [<-|[]]. eexists. split; [reflexivity|]. now left.
Qed.

End SessionFinish.

(** ** The coverage step *)

Section Coverage.

Context {W : Type} (host : Host W).

Lemma filter_missing_inlining (reportdir : str) (w : W) :
  filter is_coverage_missing (inlining_lines host reportdir w) = []
  /\ filter is_publish_coverage (inlining_lines host reportdir w) = [].
Proof.
  unfold inlining_lines. destruct (snd (inlining _ _ _)); split; reflexivity.
Qed.

Lemma filter_coverage_before (session : Session) (exitstatus : Z) mountinfo :
  filter is_coverage_missing
    (results_lines host session mountinfo ++ failure_lines session exitstatus)
  = []
  /\ filter is_publish_coverage
       (results_lines host session mountinfo ++ failure_lines session exitstatus)
     = [].
Proof.
  unfold results_lines, failure_lines.
  destruct (no_docker_discovery _), (tests_failed _ _); split; reflexivity.
Qed.

(** C2, as the code has it: with the coverage step taken and the detection
    done, the coverage XML path and the report directory are resolved to
    absolute normal form and the existence of the coverage XML is tested on
    that path, before any remapping.  When it is absent the hook prints the
    warning directive and no coverage directive.  When it is there, both
    paths are mapped through the mount table that was read, and the hook
    ends on the coverage directive carrying the mapped paths, without the
    warning of a missing file. *)
Theorem coverage_existence_checked_before_remapping (session : Session)
  (exitstatus : Z) (w : W) (mountinfo : Datatypes.option str) :
  let r := pytest_sessionfinish host session exitstatus (start w) in
  let covpath := resolve host DEFAULT_COVERAGE_PATH in
  let reportdir :=
    os_path_normpath host (os_path_abspath host DEFAULT_HTML_COVERAGE_PATH) in
  coverage_enabled session = true ->
  detection host session w = inr mountinfo ->
  returns r = true
  /\ (os_path_exists host w covpath = false ->
      printed r
      = results_lines host session mountinfo
        ++ failure_lines session exitstatus
        ++ [log_warning_directive coverage_missing_message]
      /\ filter is_publish_coverage (printed r) = [])
  /\ (os_path_exists host w covpath = true ->
      printed r
      = results_lines host session mountinfo
        ++ failure_lines session exitstatus
        ++ inlining_lines host (map_if_mounted mountinfo reportdir) w
        ++ [publish_coverage_directive
              (map_if_mounted mountinfo covpath)
              (map_if_mounted mountinfo reportdir)]
      /\ filter is_coverage_missing (printed r) = [])
  /\ (forall text path,
         map_if_mounted (Some text) path = apply_docker_mappings text path)
  /\ (forall path, map_if_mounted None path = path).
Proof.
  intros r covpath reportdir Hcov Hdet. subst r covpath reportdir.
  rewrite pytest_sessionfinish_detection. cbn [fs start]. rewrite Hdet.
  unfold returns, printed, finished, session_lines, coverage_lines.
  cbn [fst snd fs stdout start app]. rewrite Hcov. cbv zeta.
  split; [reflexivity|].
  split; [|split; [|split; [apply map_if_mounted_some|reflexivity]]];
    intros Hex; rewrite Hex; (split; [reflexivity|]).
  - rewrite app_assoc, filter_app.
    now rewrite (proj2 (filter_coverage_before session exitstatus mountinfo)).
  - rewrite app_assoc, filter_app.
    rewrite (proj1 (filter_coverage_before session exitstatus mountinfo)).
    rewrite filter_app.
    now rewrite (proj1 (filter_missing_inlining _ w)).
Qed.

(** C9: the guarded inlining never raises.  When the inlining raises [ex],
    the guard prints the one line
    [##vso[task.logissue type=warning;]Failed to inline CSS styles in
    coverage reports. Error: <str(ex)>] and returns; when the inlining
    returns, the guard prints nothing.  In the hook, with the coverage
    step taken and the coverage XML there, the line after the inlining,
    warned about or not, is the coverage directive, and the hook returns. *)
Theorem inlining_failure_is_a_warning (reportdir : str) (w : World W) :
  let i := inline_css_into_each_html_report_file host reportdir w in
  let t := try_to_inline_css_into_each_html_report_file host reportdir w in
  returns t = true
  /\ fs (fst t) = fs (fst i)
  /\ (forall ex,
         snd i = inl ex ->
         printed t
         = stdout w
           ++ [u "##vso[task.logissue type=warning;]"
               ++ u "Failed to inline CSS styles in coverage reports. Error: "
               ++ exc_str ex])
  /\ (snd i = inr tt -> printed t = stdout w)
  /\ (forall session exitstatus mountinfo,
         coverage_enabled session = true ->
         detection host session (fs w) = inr mountinfo ->
         os_path_exists host (fs w) (resolve host DEFAULT_COVERAGE_PATH) = true ->
         let r := pytest_sessionfinish host session exitstatus w in
         let dir :=
           map_if_mounted mountinfo
             (os_path_normpath host
                (os_path_abspath host DEFAULT_HTML_COVERAGE_PATH)) in
         returns r = true
         /\ exists before,
             printed r
             = before
               ++ match snd (inline_css_into_each_html_report_file host dir
                               (start (fs w))) with
                  | inl ex => [log_warning_directive (inline_failure_message ex)]
                  | inr _ => []
                  end
               ++ [publish_coverage_directive
                     (map_if_mounted mountinfo
                        (resolve host DEFAULT_COVERAGE_PATH)) dir]).
Proof.
  intros i t. subst i t. rewrite try_to_inline_run.
  unfold returns, printed, inlining_lines, inlining. cbn [fst snd fs stdout].
  rewrite (silent_inline host reportdir w). cbn [fst snd fs stdout].
  split; [reflexivity|]. split; [reflexivity|].
  split; [intros ex ->; reflexivity|].
  split; [intros ->; apply app_nil_r|].
  intros session exitstatus mountinfo Hcov Hdet Hex.
  rewrite pytest_sessionfinish_detection, Hdet.
  unfold finished, session_lines, coverage_lines. cbn [fst snd fs stdout].
  split; [reflexivity|].
  rewrite Hcov, Hex.
  exists (stdout w ++ results_lines host session mountinfo
            ++ failure_lines session exitstatus).
  unfold inlining_lines, inlining. cbn [fst snd].
  now rewrite <- !app_assoc.
Qed.

(** C10: whichever of [pytest_warning_recorded] and
    [pytest_warning_captured] the module defines, a call of it prints the
    one line [##vso[task.logissue type=warning;]] followed by the string of
    the message, changes nothing else and returns; called once for every
    recorded warning, it prints one directive for each, in order. *)
Theorem warnings_are_forwarded (pytest_at_least_7_0_0 : bool)
  (messages : list str) (w : World W) :
  let hook := snd (@defined_warning_hook W pytest_at_least_7_0_0) in
  (forall message w',
      hook message w'
      = ({| fs := fs w';
            stdout := stdout w'
                      ++ [u "##vso[task.logissue type=warning;]" ++ message] |},
         inr tt))
  /\ for_each messages hook w
     = ({| fs := fs w;
           stdout := stdout w ++ map log_warning_directive messages |},
        inr tt)
  /\ count is_log_warning (map log_warning_directive messages)
     = List.length messages.
Proof.
  intros hook.
  assert (Hone : forall message w',
             hook message w'
             = ({| fs := fs w';
                   stdout := stdout w' ++ [log_warning_directive message] |},
                inr tt)).
  { intros message w'. subst hook.
    destruct pytest_at_least_7_0_0; cbn [snd defined_warning_hook];
      unfold pytest_warning_recorded, pytest_warning_captured,
        warning_hook_body;
      now rewrite format_log_warning. }
  split; [exact Hone|]. split.
  - revert w. induction messages as [|m ms IH]; intros [f o].
    + simpl. unfold ret. now rewrite app_nil_r.
    + simpl. unfold bind. rewrite Hone. cbn [fs stdout].
      rewrite IH. cbn [fs stdout]. now rewrite <- app_assoc.
  - unfold count. induction messages as [|m ms IH]; [reflexivity|].
    simpl map. simpl List.length. rewrite <- IH. reflexivity.
Qed.

End Coverage.

(** ** The hooks in the container *)

Import Container.

(** C1, at a container with the sentinel and without a readable mount
    table: the hook raises [FileNotFoundError] and prints nothing, where a
    detection counted as negative would have let it run to its end. *)
Lemma unreadable_mount_table_aborts_hook :
  containerized host failing_session fs_without_mountinfo = true
  /\ read_binary host fs_without_mountinfo (u "/proc/1/mountinfo")
     = inl (no_such_file (u "/proc/1/mountinfo"))
  /\ pytest_sessionfinish host failing_session 1 (start fs_without_mountinfo)
     = (start fs_without_mountinfo,
        inl (no_such_file (u "/proc/1/mountinfo")))
  /\ returns (finished host failing_session 1 None (start fs_without_mountinfo))
     = true
  /\ ~ unreadable_mount_table_is_no_container host failing_session 1
         fs_without_mountinfo.
Proof.
  repeat split; try (vm_compute; reflexivity).
  intros H.
  assert (Hd : detection host failing_session fs_without_mountinfo
               = inl (no_such_file (u "/proc/1/mountinfo")))
    by (vm_compute; reflexivity).
  specialize (H _ Hd). vm_compute in H. discriminate H.
Qed.

Lemma mountinfo_failure_propagates_witness :
  containerized host failing_session (fs (start fs_without_mountinfo)) = true
  /\ read_binary host (fs (start fs_without_mountinfo)) (u "/proc/1/mountinfo")
     = inl (no_such_file (u "/proc/1/mountinfo"))
  /\ pytest_sessionfinish host failing_session 1 (start fs_without_mountinfo)
     = (start fs_without_mountinfo,
        inl (no_such_file (u "/proc/1/mountinfo"))).
Proof.
  split; [vm_compute; reflexivity|]. split; [vm_compute; reflexivity|].
  apply (proj1 (proj2 (mountinfo_failure_propagates host failing_session 1
                         (start fs_without_mountinfo))));
    vm_compute; reflexivity.
Defined.

(** C2, at a container whose [/app] is bind mounted from [/host/app]: the
    coverage XML is at [/app/coverage/coverage.xml]; its remapped path
    [/host/app/coverage/coverage.xml] names nothing inside the container.
    The hook publishes the coverage and prints no warning, where a test on
    the remapped path would have warned and published nothing. *)
Lemma coverage_published_though_remapped_file_missing :
  let r := pytest_sessionfinish host failing_session 1 (start fs_bind_mounted) in
  detection host failing_session fs_bind_mounted = inr (Some mountinfo_text)
  /\ coverage_enabled failing_session = true
  /\ apply_docker_mappings mountinfo_text (resolve host DEFAULT_COVERAGE_PATH)
     = u "/host/app/coverage/coverage.xml"
  /\ os_path_exists host fs_bind_mounted (u "/host/app/coverage/coverage.xml")
     = false
  /\ os_path_exists host fs_bind_mounted (u "/app/coverage/coverage.xml") = true
  /\ returns r = true
  /\ filter is_log_warning (printed r) = []
  /\ filter is_publish_coverage (printed r)
     = [publish_coverage_directive (u "/host/app/coverage/coverage.xml")
          (u "/host/app/coverage/htmlcov")]
  /\ coverage_lines_checking_remapped host failing_session
       (Some mountinfo_text) fs_bind_mounted
     = [log_warning_directive coverage_missing_message]
  /\ coverage_lines host failing_session (Some mountinfo_text) fs_bind_mounted
     <> coverage_lines_checking_remapped host failing_session
          (Some mountinfo_text) fs_bind_mounted.
Proof.
  cbv zeta. repeat split; try (vm_compute; reflexivity).
  vm_compute. discriminate.
Qed.

Lemma coverage_existence_checked_before_remapping_witness :
  let r := pytest_sessionfinish host failing_session 1 (start fs_bind_mounted) in
  coverage_enabled failing_session = true
  /\ detection host failing_session fs_bind_mounted = inr (Some mountinfo_text)
  /\ os_path_exists host fs_bind_mounted (resolve host DEFAULT_COVERAGE_PATH)
     = true
  /\ printed r
     = [publish_results_directive (u "Pytest results")
          (u "/host/app/test-output.xml");
        log_error_directive 1 3;
        publish_coverage_directive (u "/host/app/coverage/coverage.xml")
          (u "/host/app/coverage/htmlcov")].
Proof.
  cbv zeta.
  assert (Hcov : coverage_enabled failing_session = true) by reflexivity.
  assert (Hdet : detection host failing_session fs_bind_mounted
                 = inr (Some mountinfo_text)) by (vm_compute; reflexivity).
  assert (Hex : os_path_exists host fs_bind_mounted
                  (resolve host DEFAULT_COVERAGE_PATH) = true)
    by (vm_compute; reflexivity).
  split; [exact Hcov|]. split; [exact Hdet|]. split; [exact Hex|].
  destruct (coverage_existence_checked_before_remapping host failing_session 1
              fs_bind_mounted Hcov Hdet) as (_ & _ & Hthere & _).
  rewrite (proj1 (Hthere Hex)). vm_compute. reflexivity.
Defined.

(** C7, at the container without a readable mount table: the session has a
    failed test, a non-zero exit status and was not aborted, and the hook
    prints no error directive, having raised before. *)
Lemma no_error_directive_when_hook_aborts :
  let r := pytest_sessionfinish host failing_session 1
             (start fs_without_mountinfo) in
  tests_failed failing_session 1 = true
  /\ returns r = false
  /\ count is_log_error (printed r) = 0
  /\ ~ error_directive_iff_tests_failed host failing_session 1
         fs_without_mountinfo.
Proof.
  cbv zeta. repeat split; try (vm_compute; reflexivity).
  intros [_ H]. specialize (H eq_refl). vm_compute in H. discriminate H.
Qed.

Lemma error_directive_when_hook_returns_witness :
  let r := pytest_sessionfinish host failing_session 1 (start fs_bind_mounted) in
  returns r = true
  /\ count is_log_error (printed r) = 1
  /\ filter is_log_error (printed r) = [log_error_directive 1 3].
Proof.
  cbv zeta.
  assert (Hr : returns (pytest_sessionfinish host failing_session 1
                          (start fs_bind_mounted)) = true)
    by (vm_compute; reflexivity).
  destruct (error_directive_when_hook_returns host failing_session 1
              fs_bind_mounted) as (_ & Hreturns & _).
  destruct (Hreturns Hr) as [Hcount Hfilter].
  split; [exact Hr|]. split; [apply Hcount; reflexivity|exact Hfilter].
Defined.

Lemma publish_results_directive_form_witness :
  let r := pytest_sessionfinish host quoted_session 0 (start fs_bind_mounted) in
  no_docker_discovery (config_option (config quoted_session)) = false
  /\ os_path_isfile host fs_bind_mounted (u "/.dockerenv") = true
  /\ mount_table host fs_bind_mounted = inr mountinfo_text
  /\ printed r
     = [u "##vso[results.publish type=NUnit;runTitle='Bobs nightly run';publishRunAttachments=true;]/host/app/out/results.xml";
        u "Skipping uploading of coverage data."]
  /\ filter is_publish_results (printed r)
     = [u "##vso[results.publish type=NUnit;runTitle='Bobs nightly run';publishRunAttachments=true;]/host/app/out/results.xml"].
Proof.
  cbv zeta.
  assert (Hm : mount_table host fs_bind_mounted = inr mountinfo_text)
    by (vm_compute; reflexivity).
  split; [reflexivity|]. split; [reflexivity|]. split; [exact Hm|].
  split; [vm_compute; reflexivity|].
  destruct (publish_results_directive_form host quoted_session 0
              fs_bind_mounted) as (_ & _ & _ & Hmounted & _).
  destruct (Hmounted eq_refl eq_refl _ Hm) as (_ & Hfilter & _).
  rewrite Hfilter. vm_compute. reflexivity.
Defined.

Lemma inlining_failure_is_a_warning_witness :
  let dir := u "/app/coverage/htmlcov" in
  snd (inline_css_into_each_html_report_file host dir
         (start fs_without_stylesheet))
  = inl (no_such_file (u "/plugin/resources/style.css"))
  /\ printed (try_to_inline_css_into_each_html_report_file host dir
                (start fs_without_stylesheet))
     = [u "##vso[task.logissue type=warning;]Failed to inline CSS styles in coverage reports. Error: [Errno 2] No such file or directory: '/plugin/resources/style.css'"].
Proof.
  cbv zeta.
  assert (Hi : snd (inline_css_into_each_html_report_file host
                      (u "/app/coverage/htmlcov") (start fs_without_stylesheet))
               = inl (no_such_file (u "/plugin/resources/style.css")))
    by (vm_compute; reflexivity).
  split; [exact Hi|].
  destruct (inlining_failure_is_a_warning host (u "/app/coverage/htmlcov")
              (start fs_without_stylesheet)) as (_ & _ & Hraised & _).
  rewrite (Hraised _ Hi). vm_compute. reflexivity.
Defined.

(** The whole output of a session in the container without the stylesheet
    of the plugin: the inlining is warned about and the coverage is
    published. *)
Lemma session_without_stylesheet :
  printed (pytest_sessionfinish host failing_session 1
             (start fs_without_stylesheet))
  = [u "##vso[results.publish type=NUnit;runTitle='Pytest results';publishRunAttachments=true;]/app/test-output.xml";
     u "##vso[task.logissue type=error;]1 test(s) failed, 3 test(s) collected.";
     u "##vso[task.logissue type=warning;]Failed to inline CSS styles in coverage reports. Error: [Errno 2] No such file or directory: '/plugin/resources/style.css'";
     u "##vso[codecoverage.publish codecoveragetool=Cobertura;summaryfile=/app/coverage/coverage.xml;reportdirectory=/app/coverage/htmlcov;]"].
Proof. vm_compute. reflexivity. Qed.


(** * Further properties *)

(** ** More on strings *)

Lemma split_free (sep : char) (w : str) :
  existsb (N.eqb sep) w = false -> split sep w = [w].
Proof.
  induction w as [|c w IH]; intros H; [reflexivity|].
  simpl in H. apply orb_false_iff in H as [Hc Hw].
  simpl. rewrite N.eqb_sym, Hc. now rewrite (IH Hw).
Qed.

Lemma split_app_sep (sep : char) (w rest : str) :
  existsb (N.eqb sep) w = false ->
  split sep (w ++ sep :: rest) = w :: split sep rest.
Proof.
  induction w as [|c w IH]; intros H.
  - simpl. now rewrite N.eqb_refl.
  - simpl in H. apply orb_false_iff in H as [Hc Hw].
    simpl. rewrite N.eqb_sym, Hc. now rewrite (IH Hw).
Qed.

(** Fields without the separator, joined and split again. *)
Lemma split_join (sep : char) (w : str) (ws : list str) :
  forallb (fun f => negb (existsb (N.eqb sep) f)) (w :: ws) = true ->
  split sep (join [sep] (w :: ws)) = w :: ws.
Proof.
  revert w. induction ws as [|w' ws IH]; intros w H.
  - simpl in H. rewrite andb_true_r in H. apply negb_true_iff in H.
    now apply split_free.
  - change (forallb (fun f => negb (existsb (N.eqb sep) f)) (w :: w' :: ws))
      with (negb (existsb (N.eqb sep) w)
            && forallb (fun f => negb (existsb (N.eqb sep) f)) (w' :: ws)) in H.
    apply andb_prop in H as [Hw Hrest]. apply negb_true_iff in Hw.
    change (join [sep] (w :: w' :: ws))
      with (w ++ sep :: join [sep] (w' :: ws)).
    rewrite (split_app_sep _ _ _ Hw). now rewrite (IH w' Hrest).
Qed.

(** A prefix that is there, cut off and put back. *)
Lemma startswith_cut (s p : str) :
  startswith s p = true -> p ++ slice_from (len p) s = s.
Proof.
  intros H. apply startswith_spec in H as [rest ->].
  now rewrite slice_from_app.
Qed.

Lemma parse_line_nil : parse_line [] = None.
Proof. reflexivity. Qed.

Lemma parse_lines_cons (l : str) (ls : list str) :
  parse_lines (l :: ls) = parse_lines [l] ++ parse_lines ls.
Proof. simpl. destruct (parse_line l); reflexivity. Qed.

Lemma splitlines_from_linefeed (cur b : str) :
  splitlines_from cur (10%N :: b) = rev cur :: splitlines b.
Proof. simpl. destruct b; reflexivity. Qed.

(** The lines of a text, a line feed and a second text are the lines of
    the two texts, with at most one empty line between them; an empty
    line gives no entry. *)
Lemma parse_lines_splitlines_app (n : nat) :
  forall a : str, (len a <= n)%nat ->
  forall cur b : str,
    parse_lines (splitlines_from cur (a ++ 10%N :: b))
    = parse_lines (splitlines_from cur a) ++ parse_lines (splitlines b).
Proof.
  unfold len. induction n as [|n IH]; intros a Hn cur b.
  - destruct a; [|simpl in Hn; lia].
    rewrite app_nil_l, splitlines_from_linefeed.
    destruct cur as [|c cur]; [reflexivity|].
    simpl splitlines_from. apply parse_lines_cons.
  - destruct a as [|c a].
    { rewrite app_nil_l, splitlines_from_linefeed.
      destruct cur as [|c cur]; [reflexivity|].
      simpl splitlines_from. apply parse_lines_cons. }
    simpl in Hn. assert (Ha : (List.length a <= n)%nat) by lia.
    rewrite <- app_comm_cons.
    cbn [splitlines_from]. destruct (is_linebreak c).
    + rewrite (parse_lines_cons (rev cur)).
      rewrite (parse_lines_cons (rev cur) (match a with [] => _ | _ => _ end)).
      rewrite <- app_assoc. f_equal.
      destruct a as [|d a].
      * cbn [app]. change (10 =? 10)%N with true.
        destruct (c =? 13)%N; cbn [andb].
        -- reflexivity.
        -- rewrite splitlines_from_linefeed. reflexivity.
      * rewrite <- app_comm_cons.
        destruct ((c =? 13)%N && (d =? 10)%N).
        -- apply IH. simpl in Ha. lia.
        -- rewrite app_comm_cons. apply IH. exact Ha.
    + apply IH. exact Ha.
Qed.

Lemma remap_app (es1 es2 : list MountEntry) (path : str) :
  remap (es1 ++ es2) path = remap es2 (remap es1 path).
Proof. apply fold_left_app. Qed.

Lemma parse_line_none_iff (line : str) :
  parse_line line = None <-> (count_occ N.eq_dec line SPACE < 4)%nat.
Proof.
  unfold parse_line. rewrite split_length.
  destruct (Nat.ltb_spec (S (count_occ N.eq_dec line SPACE)) 5);
    split; intros; try lia; try reflexivity; discriminate.
Qed.

(** The step of a line given by its fields. *)
Lemma docker_mapping_step_fields (f0 f1 f2 h c : str) (more : list str)
  (path : str) :
  forallb (fun f => negb (existsb (N.eqb SPACE) f))
    (f0 :: f1 :: f2 :: h :: c :: more) = true ->
  docker_mapping_step path (join [SPACE] (f0 :: f1 :: f2 :: h :: c :: more))
  = if startswith path c then h ++ slice_from (len c) path else path.
Proof.
  intros H. unfold docker_mapping_step. rewrite (split_join _ _ _ H).
  reflexivity.
Qed.

(** ** More on the mount table *)

(** X1: a mount table made of two tables with a line feed between them maps
    a path as the second table maps what the first made of the path. *)
Theorem mount_tables_compose (a b path : str) :
  apply_docker_mappings (a ++ 10%N :: b) path
  = apply_docker_mappings b (apply_docker_mappings a path).
Proof.
  rewrite !apply_docker_mappings_remap. unfold parse, splitlines.
  rewrite (parse_lines_splitlines_app (n := len a) a (le_n _) [] b).
  apply remap_app.
Qed.

(** X2: a line counts when it has four spaces or more.  With fewer the
    step leaves every path as it is, and so does a whole table of such
    lines; with four or more the step replaces field 4, where the path
    starts with it, by field 3. *)
Theorem line_counts_from_four_spaces (line : str) :
  ((count_occ N.eq_dec line SPACE < 4)%nat ->
   forall path, docker_mapping_step path line = path)
  /\ ((4 <= count_occ N.eq_dec line SPACE)%nat ->
      forall rest,
        docker_mapping_step (nth 4 (split SPACE line) [] ++ rest) line
        = nth 3 (split SPACE line) [] ++ rest)
  /\ (forall mountinfo path,
         forallb (fun l => (count_occ N.eq_dec l SPACE <? 4)%nat)
           (splitlines mountinfo) = true ->
         apply_docker_mappings mountinfo path = path).
Proof.
  split; [|split].
  - intros H path. rewrite docker_mapping_step_entry.
    now rewrite (proj2 (parse_line_none_iff line) H).
  - intros H rest. unfold docker_mapping_step.
    rewrite split_length.
    destruct (Nat.ltb_spec (S (count_occ N.eq_dec line SPACE)) 5); [lia|].
    rewrite startswith_app. cbn [join app]. now rewrite slice_from_app.
  - intros mountinfo path H. unfold apply_docker_mappings.
    revert path. induction (splitlines mountinfo) as [|l ls IH]; intros path;
      [reflexivity|].
    simpl in H. apply andb_prop in H as [Hl Hls]. apply Nat.ltb_lt in Hl.
    simpl. rewrite docker_mapping_step_entry.
    rewrite (proj2 (parse_line_none_iff l) Hl). now apply IH.
Qed.

Lemma line_counts_from_four_spaces_witness :
  docker_mapping_step (u "/mnt/a/file.xml") (u "36 35 98:0 /host/a") 
  = u "/mnt/a/file.xml"
  /\ docker_mapping_step (u "/mnt/a" ++ u "/file.xml")
       (u "36 35 98:0 /host/a /mnt/a")
     = u "/host/a" ++ u "/file.xml"
  /\ apply_docker_mappings (u "36 35" ++ 10%N :: 10%N :: u "a b c d")
       (u "/mnt/a/file.xml")
     = u "/mnt/a/file.xml".
Proof.
  split; [|split].
  - apply (proj1 (line_counts_from_four_spaces (u "36 35 98:0 /host/a"))).
    vm_compute. lia.
  - apply (proj1 (proj2 (line_counts_from_four_spaces
                           (u "36 35 98:0 /host/a /mnt/a")))).
    vm_compute. lia.
  - apply (proj2 (proj2 (line_counts_from_four_spaces []))).
    vm_compute. reflexivity.
Defined.

(** X3: for a line written as five or more fields, none with a space in
    it, the step replaces the container mount point (field 4) at the head
    of a path by the host mount point (field 3) and keeps the rest of the
    path, whatever the rest starts with; a path that does not start with
    field 4 is left as it is. *)
Theorem matching_line_substitutes_prefix (f0 f1 f2 h c : str)
  (more : list str) :
  forallb (fun f => negb (existsb (N.eqb SPACE) f))
    (f0 :: f1 :: f2 :: h :: c :: more) = true ->
  let line := join [SPACE] (f0 :: f1 :: f2 :: h :: c :: more) in
  (forall rest, docker_mapping_step (c ++ rest) line = h ++ rest)
  /\ (forall path,
         startswith path c = false -> docker_mapping_step path line = path).
Proof.
  intros H line. subst line. split.
  - intros rest. rewrite (docker_mapping_step_fields _ _ _ _ _ _ _ H).
    now rewrite startswith_app, slice_from_app.
  - intros path Hno. rewrite (docker_mapping_step_fields _ _ _ _ _ _ _ H).
    now rewrite Hno.
Qed.

Lemma matching_line_substitutes_prefix_witness :
  docker_mapping_step (u "/mnt/a" ++ u "bc/file.xml")
    (u "36 35 98:0 /host/a /mnt/a rw")
  = u "/host/a" ++ u "bc/file.xml"
  /\ docker_mapping_step (u "/srv/file.xml") (u "36 35 98:0 /host/a /mnt/a rw")
     = u "/srv/file.xml".
Proof.
  assert (H : forallb (fun f => negb (existsb (N.eqb SPACE) f))
                [u "36"; u "35"; u "98:0"; u "/host/a"; u "/mnt/a"; u "rw"]
              = true) by (vm_compute; reflexivity).
  destruct (matching_line_substitutes_prefix _ _ _ _ _ _ H) as [Hhit Hmiss].
  split.
  - exact (Hhit (u "bc/file.xml")).
  - apply Hmiss. vm_compute. reflexivity.
Defined.

(** X4: a line and, after it, a line with the two mount points exchanged
    give the path back: host to container undoes container to host. *)
Theorem exchanged_line_restores_path (f0 f1 f2 g0 g1 g2 h c : str)
  (more more' : list str) (rest : str) :
  forallb (fun f => negb (existsb (N.eqb SPACE) f))
    (f0 :: f1 :: f2 :: h :: c :: more) = true ->
  forallb (fun f => negb (existsb (N.eqb SPACE) f))
    (g0 :: g1 :: g2 :: c :: h :: more') = true ->
  docker_mapping_step
    (docker_mapping_step (c ++ rest)
       (join [SPACE] (f0 :: f1 :: f2 :: h :: c :: more)))
    (join [SPACE] (g0 :: g1 :: g2 :: c :: h :: more'))
  = c ++ rest.
Proof.
  intros H H'.
  rewrite (docker_mapping_step_fields _ _ _ _ _ _ _ H),
    startswith_app, slice_from_app.
  rewrite (docker_mapping_step_fields _ _ _ _ _ _ _ H').
  now rewrite startswith_app, slice_from_app.
Qed.

Lemma exchanged_line_restores_path_witness :
  docker_mapping_step
    (docker_mapping_step (u "/mnt/a" ++ u "/file.xml")
       (u "36 35 98:0 /host/a /mnt/a rw"))
    (u "37 35 98:0 /mnt/a /host/a")
  = u "/mnt/a" ++ u "/file.xml".
Proof.
  apply (exchanged_line_restores_path
           (u "36") (u "35") (u "98:0") (u "37") (u "35") (u "98:0")
           (u "/host/a") (u "/mnt/a") [u "rw"] [] (u "/file.xml"));
    vm_compute; reflexivity.
Defined.

(** X5: a line whose fields 3 and 4 are the same, as the line of a mount
    of [/] at [/], changes no path. *)
Theorem equal_mount_points_change_nothing (line path : str) :
  nth 3 (split SPACE line) [] = nth 4 (split SPACE line) [] ->
  docker_mapping_step path line = path.
Proof.
  intros H. unfold docker_mapping_step.
  destruct (len (split SPACE line) <? 5)%nat; [reflexivity|].
  destruct (startswith path (nth 4 (split SPACE line) [])) eqn:Hs;
    [|reflexivity].
  cbn [join app]. rewrite H. now apply startswith_cut.
Qed.

Lemma equal_mount_points_change_nothing_witness :
  docker_mapping_step (u "/app/test-output.xml") (u "21 20 0:19 / / rw,relatime")
  = u "/app/test-output.xml".
Proof.
  apply equal_mount_points_change_nothing. vm_compute. reflexivity.
Defined.

(** X6: a line of five or more fields whose field 4 is empty, as two
    spaces in a row after field 3 make it, matches every path: the step
    puts field 3 in front of the whole path. *)
Theorem empty_mount_point_matches_every_path (line path : str) :
  (5 <= len (split SPACE line))%nat ->
  nth 4 (split SPACE line) [] = [] ->
  docker_mapping_step path line = nth 3 (split SPACE line) [] ++ path.
Proof.
  intros Hlen Hempty. unfold docker_mapping_step.
  destruct (Nat.ltb_spec (len (split SPACE line)) 5); [lia|].
  rewrite Hempty. reflexivity.
Qed.

Lemma empty_mount_point_matches_every_path_witness :
  docker_mapping_step (u "/srv/file.xml") (u "36 35 98:0 /host/a  /mnt/a")
  = u "/host/a" ++ u "/srv/file.xml".
Proof.
  apply (empty_mount_point_matches_every_path
           (u "36 35 98:0 /host/a  /mnt/a") (u "/srv/file.xml")).
  - vm_compute. lia.
  - vm_compute. reflexivity.
Defined.

(** ** More on the end-of-session hook *)

Section SessionFinishMore.

Context {W : Type} (host : Host W).

Lemma last_app_nonempty {A} (l l' : list A) (d : A) :
  l' <> [] -> last (l ++ l') d = last l' d.
Proof.
  intros H. induction l as [|a l IH]; [reflexivity|].
  simpl. rewrite IH. destruct (l ++ l') eqn:E; [|reflexivity].
  apply app_eq_nil in E as [_ E]. contradiction.
Qed.

Lemma str_eq_head (c d : char) (a b : str) :
  c <> d -> str_eq (c :: a) (d :: b) = false.
Proof.
  intros H. unfold str_eq.
  destruct (list_eq_dec N.eq_dec (c :: a) (d :: b)) as [E|]; [|reflexivity].
  injection E as E _. contradiction.
Qed.

Lemma filter_skipped_results (session : Session) mountinfo :
  filter is_coverage_skipped (results_lines host session mountinfo) = []
  /\ filter is_coverage_missing (results_lines host session mountinfo) = []
  /\ filter is_publish_coverage (results_lines host session mountinfo) = []
  /\ filter is_log_warning (results_lines host session mountinfo) = [].
Proof.
  unfold results_lines.
  destruct (no_docker_discovery _); repeat split; reflexivity.
Qed.

Lemma filter_skipped_failure (session : Session) (exitstatus : Z) :
  filter is_coverage_skipped (failure_lines session exitstatus) = []
  /\ filter is_coverage_missing (failure_lines session exitstatus) = []
  /\ filter is_publish_coverage (failure_lines session exitstatus) = []
  /\ filter is_log_warning (failure_lines session exitstatus) = [].
Proof.
  unfold failure_lines.
  destruct (tests_failed _ _); repeat split; reflexivity.
Qed.

Lemma inlining_lines_cases (reportdir : str) (w : W) :
  inlining_lines host reportdir w = []
  \/ exists ex,
      inlining_lines host reportdir w
      = [log_warning_directive (inline_failure_message ex)].
Proof.
  unfold inlining_lines. destruct (snd (inlining _ _ _)) as [ex|];
    [right; now exists ex|now left].
Qed.

(** The counts of the coverage step: the directive, the warning of a
    missing file, the plain line, and all warnings. *)
Lemma coverage_lines_counts (session : Session) mountinfo (w : W) :
  let ls := coverage_lines host session mountinfo w in
  (count is_publish_coverage ls + count is_coverage_missing ls
   + count is_coverage_skipped ls = 1)%nat
  /\ (count is_log_warning ls <= 1)%nat
  /\ (1 <= List.length ls <= 2)%nat
  /\ exists l,
      last ls [] = l
      /\ (is_publish_coverage l || is_coverage_missing l
          || is_coverage_skipped l) = true.
Proof.
  unfold coverage_lines, count. cbv zeta.
  destruct (coverage_enabled session).
  - destruct (os_path_exists _ _ _).
    + destruct (inlining_lines_cases
                  (map_if_mounted mountinfo
                     (os_path_normpath host
                        (os_path_abspath host DEFAULT_HTML_COVERAGE_PATH))) w)
        as [->|[ex ->]];
        repeat split;
        first [reflexivity | cbn; lia | eexists; split; reflexivity].
    + repeat split;
        first [reflexivity | cbn; lia | eexists; split; reflexivity].
  - repeat split;
      first [reflexivity | cbn; lia | eexists; split; reflexivity].
Qed.

(** X7: with [--no-docker-discovery] the hook asks nothing of the file
    system and leaves it alone, on any host; it returns after exactly the
    plain line about the test results, the error directive when the
    session failed, and the plain line about the coverage data: neither
    results nor coverage are published. *)
Theorem no_docker_discovery_publishes_nothing (session : Session)
  (exitstatus : Z) (w : World W) :
  no_docker_discovery (config_option (config session)) = true ->
  pytest_sessionfinish host session exitstatus w
  = ({| fs := fs w;
        stdout := stdout w
                  ++ [results_skipped_line]
                  ++ (if tests_failed session exitstatus
                      then [log_error_directive (testsfailed session)
                              (testscollected session)]
                      else [])
                  ++ [coverage_skipped_line] |},
     inr tt).
Proof.
  intros H. rewrite pytest_sessionfinish_run.
  unfold sessionfinish_result, containerized, finished, fs_after_session,
    session_lines, results_lines, failure_lines, coverage_lines,
    coverage_enabled.
  rewrite H. cbn [negb andb]. rewrite andb_false_r. reflexivity.
Qed.

(** X8: the hook changes the file system only by the inlining: when it
    raises, when the coverage step is not taken, or when the coverage XML
    is not there, the file system after the hook is the one before. *)
Theorem file_system_changes_only_by_inlining (session : Session)
  (exitstatus : Z) (w : World W) :
  let r := pytest_sessionfinish host session exitstatus w in
  returns r = false
  \/ coverage_enabled session = false
  \/ os_path_exists host (fs w) (resolve host DEFAULT_COVERAGE_PATH) = false ->
  fs (fst r) = fs w.
Proof.
  intros r H. subst r. revert H. rewrite pytest_sessionfinish_detection.
  destruct (detection host session (fs w)) as [ex|mountinfo];
    [reflexivity|].
  unfold returns, finished, fs_after_session. cbn [fst snd fs].
  intros [H|[H|H]]; [discriminate|rewrite H; reflexivity|].
  rewrite H. now rewrite andb_false_r.
Qed.

(** X9: a hook that returns has printed two to four lines: first the line
    about the test results, last the one line of the coverage step, which
    is the coverage directive, the warning of a missing coverage XML or
    the plain line, never two of them; and at most one warning. *)
Theorem coverage_step_has_one_outcome (session : Session) (exitstatus : Z)
  (w : W) :
  let r := pytest_sessionfinish host session exitstatus (start w) in
  returns r = true ->
  (2 <= List.length (printed r) <= 4)%nat
  /\ (count is_publish_coverage (printed r)
      + count is_coverage_missing (printed r)
      + count is_coverage_skipped (printed r) = 1)%nat
  /\ (count is_log_warning (printed r) <= 1)%nat
  /\ (is_publish_coverage (last (printed r) [])
      || is_coverage_missing (last (printed r) [])
      || is_coverage_skipped (last (printed r) [])) = true
  /\ (exists l,
         hd_error (printed r) = Some l
         /\ (is_publish_results l = true \/ l = results_skipped_line)).
Proof.
  intros r. subst r. rewrite pytest_sessionfinish_detection. cbn [fs start].
  destruct (detection host session w) as [ex|mountinfo]; [discriminate|].
  intros _. unfold printed, finished, session_lines.
  cbn [fst fs stdout start app].
  destruct (coverage_lines_counts session mountinfo w)
    as (Hone & Hwarn & Hlen & l & Hlast & Hl).
  cbv zeta in *.
  destruct (filter_skipped_results session mountinfo)
    as (Hr1 & Hr2 & Hr3 & Hr4).
  destruct (filter_skipped_failure session exitstatus)
    as (Hf1 & Hf2 & Hf3 & Hf4).
  unfold count in *. rewrite !filter_app, Hr1, Hr2, Hr3, Hr4, Hf1, Hf2, Hf3, Hf4.
  cbn [app]. rewrite !length_app.
  assert (Hres : List.length (results_lines host session mountinfo) = 1%nat)
    by (unfold results_lines; destruct (no_docker_discovery _); reflexivity).
  assert (Hfail : (List.length (failure_lines session exitstatus) <= 1)%nat)
    by (unfold failure_lines; destruct (tests_failed _ _); simpl; lia).
  split; [lia|]. split; [exact Hone|]. split; [exact Hwarn|]. split.
  - assert (Hne : coverage_lines host session mountinfo w <> [])
      by (intros E; rewrite E in Hlen; simpl in Hlen; lia).
    rewrite app_assoc, (last_app_nonempty _ _ Hne).
    now rewrite Hlast.
  - unfold results_lines. destruct (no_docker_discovery _); cbn [app hd_error];
      eexists; (split; [reflexivity|]); [now right|now left].
Qed.

End SessionFinishMore.

Section SessionFinishPlain.

Context {W : Type} (host : Host W).

Lemma existsb_absent (c : char) (s : str) :
  ~ In c s -> existsb (N.eqb c) s = false.
Proof.
  induction s as [|d s IH]; intros H; [reflexivity|].
  cbn [existsb]. destruct (N.eqb_spec c d) as [E|_].
  - exfalso. apply H. left. now symmetry.
  - apply IH. intros Hin. apply H. now right.
Qed.

(** X10: with discovery enabled, no sentinel, no failed session and the
    coverage step not taken, the hook prints the publish directive with
    the resolved, unmapped result path and the plain line about the
    coverage data, nothing else, and leaves the file system alone. *)
Theorem plain_run_prints_two_lines (session : Session) (exitstatus : Z)
  (w : World W) :
  let opt := config_option (config session) in
  no_docker_discovery opt = false ->
  os_path_isfile host (fs w) (u "/.dockerenv") = false ->
  tests_failed session exitstatus = false ->
  coverage_enabled session = false ->
  pytest_sessionfinish host session exitstatus w
  = ({| fs := fs w;
        stdout := stdout w
                  ++ [publish_results_directive
                        (without_quotes (azure_run_title opt))
                        (resolve host (nunit_xmlpath opt));
                      coverage_skipped_line] |},
     inr tt).
Proof.
  intros opt Hd Hf Ht Hc. rewrite pytest_sessionfinish_run.
  unfold sessionfinish_result, containerized, finished, fs_after_session,
    session_lines, results_lines, failure_lines, coverage_lines.
  fold opt. rewrite Hd, Hf, Ht, Hc. reflexivity.
Qed.

(** X11: the run title can be read back from the publish directive: the
    text between the first two single quotes of the first line of a hook
    that returns with discovery enabled is the configured title without
    its single quotes, whatever the title and the result path are. *)
Theorem title_reads_back_from_directive (session : Session) (exitstatus : Z)
  (w : W) :
  let opt := config_option (config session) in
  let r := pytest_sessionfinish host session exitstatus (start w) in
  no_docker_discovery opt = false ->
  returns r = true ->
  exists line,
    hd_error (printed r) = Some line
    /\ nth 1 (split QUOTE line) []
       = replace (u "'") [] (azure_run_title opt).
Proof.
  intros opt r Hd. subst r. rewrite pytest_sessionfinish_detection.
  cbn [fs start].
  destruct (detection host session w) as [ex|mountinfo]; [discriminate|].
  intros _. unfold printed, finished, session_lines, results_lines.
  cbn [fst fs stdout start app]. fold opt. rewrite Hd.
  eexists. split; [reflexivity|].
  change (u "'") with [QUOTE]. rewrite replace_quote.
  unfold publish_results_directive.
  change (u "##vso[results.publish type=NUnit;runTitle='")
    with (u "##vso[results.publish type=NUnit;runTitle=" ++ [QUOTE]).
  rewrite <- !app_assoc. cbn [app].
  rewrite split_app_sep by reflexivity.
  change (u "';publishRunAttachments=true;]")
    with (QUOTE :: u ";publishRunAttachments=true;]").
  rewrite <- app_comm_cons.
  rewrite split_app_sep; [reflexivity|].
  apply existsb_absent, without_quotes_free.
Qed.

End SessionFinishPlain.

(** ** The inlining of the stylesheet *)

Lemma replace_from_skip (old new : str) (k : nat) (s : str) :
  replace_from old new k s = replace_from old new 0 (skipn k s).
Proof.
  revert k. induction s as [|c s IH]; intros k.
  - now rewrite skipn_nil.
  - destruct k as [|k]; [reflexivity|]. simpl. apply IH.
Qed.

(** Nothing to replace. *)
Lemma replace_find_none (old new s : str) :
  old <> [] -> find s old = None -> replace old new s = s.
Proof.
  intros Hold. destruct old as [|o old]; [contradiction|]. unfold replace.
  induction s as [|c s IH]; intros H; [reflexivity|].
  cbn [find] in H. cbn [replace_from].
  destruct (startswith (c :: s) (o :: old)); [discriminate|].
  destruct (find s (o :: old)); [discriminate|]. now rewrite IH.
Qed.

(** The first occurrence is replaced, and the search goes on after it. *)
Lemma replace_find_some (old new s : str) (i : nat) :
  old <> [] -> find s old = Some i ->
  replace old new s
  = firstn i s ++ new ++ replace old new (skipn (i + len old) s).
Proof.
  intros Hold. destruct old as [|o old]; [contradiction|]. unfold replace.
  revert i. induction s as [|c s IH]; intros i H; [discriminate|].
  cbn [find] in H. cbn [replace_from].
  destruct (startswith (c :: s) (o :: old)).
  - injection H as <-. rewrite replace_from_skip.
    unfold len. simpl. now rewrite Nat.sub_0_r.
  - destruct (find s (o :: old)) as [j|]; [|discriminate].
    injection H as <-. simpl. now rewrite (IH j eq_refl).
Qed.

Section Inlining.

Context {W : Type} (host : Host W).

Lemma for_each_skipped (names : list str) (body : str -> IO W unit)
  (p : str -> bool) (w : World W) :
  (forall x, p x = false -> body x = ret tt) ->
  forallb (fun x => negb (p x)) names = true ->
  for_each names body w = (w, inr tt).
Proof.
  intros Hbody. induction names as [|x xs IH]; intros H; [reflexivity|].
  simpl in H. apply andb_prop in H as [Hx Hxs]. apply negb_true_iff in Hx.
  simpl. unfold bind. rewrite (Hbody x Hx). unfold ret. now apply IH.
Qed.

(** X12: when the stylesheet is read and the report directory lists no
    name ending in [.html], the inlining reads and writes no file: it
    returns with the file system as it was. *)
Theorem inlining_skips_other_files (reportdir folder css : str)
  (names : list str) (w : World W) :
  get_resource_folder_path host (fs w) = inr folder ->
  read_text host (fs w) (os_path_join host folder (u "style.css")) = inr css ->
  os_listdir host (fs w) reportdir = inr names ->
  forallb (fun name => negb (endswith name (u ".html"))) names = true ->
  inline_css_into_each_html_report_file host reportdir w = (w, inr tt).
Proof.
  intros Hfolder Hcss Hlist Hnames.
  unfold inline_css_into_each_html_report_file, get_resource_file_content,
    bind, attempt.
  rewrite Hfolder, Hcss, Hlist.
  apply (for_each_skipped names _ (fun name => endswith name (u ".html")));
    [|exact Hnames].
  intros x Hx. now rewrite Hx.
Qed.

(** X13: the inlining writes nothing before it has the stylesheet and the
    listing: when the search for the resources folder, the reading of
    [style.css] or the listing of the report directory raises, the
    inlining raises the same exception and the file system is as it was. *)
Theorem inlining_fails_before_writing (reportdir : str) (w : World W)
  (ex : PyException) :
  get_resource_folder_path host (fs w) = inl ex
  \/ (exists folder,
         get_resource_folder_path host (fs w) = inr folder
         /\ read_text host (fs w) (os_path_join host folder (u "style.css"))
            = inl ex)
  \/ (exists folder css,
         get_resource_folder_path host (fs w) = inr folder
         /\ read_text host (fs w) (os_path_join host folder (u "style.css"))
            = inr css
         /\ os_listdir host (fs w) reportdir = inl ex) ->
  inline_css_into_each_html_report_file host reportdir w = (w, inl ex).
Proof.
  unfold inline_css_into_each_html_report_file, get_resource_file_content,
    bind, attempt.
  intros [H|[(folder & Hf & H)|(folder & css & Hf & Hc & H)]].
  - now rewrite H.
  - now rewrite Hf, H.
  - now rewrite Hf, Hc, H.
Qed.

(** X14: for a report directory that lists one page, the inlining writes
    the page once, with the text it read in which the fragment made of
    the stylesheet stands right before the first [</head>] and the rest
    is as [replace] leaves it; a page without [</head>] is written back
    with the text it had.  What the writing gives, the inlining gives. *)
Theorem style_goes_before_head (reportdir folder css file text : str)
  (w : World W) :
  let page := os_path_join host reportdir file in
  let head := u "</head>" in
  get_resource_folder_path host (fs w) = inr folder ->
  read_text host (fs w) (os_path_join host folder (u "style.css")) = inr css ->
  os_listdir host (fs w) reportdir = inr [file] ->
  endswith file (u ".html") = true ->
  read_text host (fs w) page = inr text ->
  (forall i,
      find text head = Some i ->
      inline_css_into_each_html_report_file host reportdir w
      = update (fun f =>
                  write_text host f page
                    (firstn i text ++ style_fragment_of css ++ head
                     ++ replace head (style_fragment_of css ++ head)
                          (skipn (i + 7) text))) w)
  /\ (find text head = None ->
      inline_css_into_each_html_report_file host reportdir w
      = update (fun f => write_text host f page text) w).
Proof.
  intros page head Hfolder Hcss Hlist Hhtml Hread.
  assert (Hrun : inline_css_into_each_html_report_file host reportdir w
                 = update (fun f =>
                             write_text host f page
                               (replace head (style_fragment_of css ++ head)
                                  text)) w).
  { unfold inline_css_into_each_html_report_file, get_resource_file_content,
      bind, attempt.
    rewrite Hfolder, Hcss, Hlist. cbn [for_each]. rewrite Hhtml.
    unfold bind, attempt. fold page. rewrite Hread.
    fold (style_fragment_of css). fold head.
    destruct (update _ w) as [w' [e|[]]]; reflexivity. }
  split.
  - intros i Hi. rewrite Hrun.
    rewrite (@replace_find_some head (style_fragment_of css ++ head) text i)
      by (assumption || discriminate).
    now rewrite <- !app_assoc.
  - intros Hnone. rewrite Hrun.
    now rewrite (@replace_find_none head (style_fragment_of css ++ head) text)
      by (assumption || discriminate).
Qed.

End Inlining.

(** ** The configuration hook *)

Lemma dict_get_set_same {V} (d : Dict V) (k : string) (v : V) :
  dict_get (dict_set d k v) k = Some v.
Proof.
  induction d as [|[k' v'] d IH]; simpl.
  - now rewrite String.eqb_refl.
  - destruct (String.eqb k' k) eqn:E; simpl; now rewrite E.
Qed.

Lemma dict_get_set_other {V} (d : Dict V) (k k' : string) (v : V) :
  k' <> k -> dict_get (dict_set d k v) k' = dict_get d k'.
Proof.
  intros Hne. induction d as [|[k0 v0] d IH]; simpl.
  - destruct (String.eqb_spec k k'); [congruence|reflexivity].
  - destruct (String.eqb_spec k0 k) as [->|Hk]; simpl.
    + destruct (String.eqb_spec k k'); [congruence|reflexivity].
    + destruct (String.eqb k0 k'); [reflexivity|exact IH].
Qed.

Lemma dict_set_twice {V} (d : Dict V) (k : string) (v : V) :
  dict_set (dict_set d k v) k v = dict_set d k v.
Proof.
  induction d as [|[k' v'] d IH]; simpl.
  - now rewrite String.eqb_refl.
  - destruct (String.eqb k' k) eqn:E; simpl; rewrite E; [reflexivity|].
    now rewrite IH.
Qed.

Section ConfigureProperties.

Context {W : Type} (host : Host W).

Lemma has_plugin_configured (xmlpath : Datatypes.option str) (c : Config)
  (d : Dict (Datatypes.option str)) (name : string) :
  has_plugin (fst (pytest_configure host xmlpath c d)) name
  = has_plugin c name.
Proof.
  unfold pytest_configure.
  destruct (has_plugin c "pytest_cov"), (negb (truthy_or_none xmlpath));
    reflexivity.
Qed.

Lemma cov_report_configured (xmlpath : Datatypes.option str) (c : Config)
  (d : Dict (Datatypes.option str)) :
  has_plugin c "pytest_cov" = true ->
  snd (pytest_configure host xmlpath c d)
  = let d1 := dict_set d "xml" (Some (resolve host DEFAULT_COVERAGE_PATH)) in
    if dict_contains d1 "html" then d1 else dict_set d1 "html" None.
Proof.
  intros H. unfold pytest_configure. rewrite H. cbv zeta. cbn [snd].
  fold (resolve host DEFAULT_COVERAGE_PATH).
  destruct (dict_contains _ "html"); reflexivity.
Qed.

Lemma cov_report_xml_configured (xmlpath : Datatypes.option str) (c : Config)
  (d : Dict (Datatypes.option str)) :
  has_plugin c "pytest_cov" = true ->
  dict_get (snd (pytest_configure host xmlpath c d)) "xml"
  = Some (Some (resolve host DEFAULT_COVERAGE_PATH)).
Proof.
  intros H. rewrite (cov_report_configured xmlpath c d H). cbv zeta.
  destruct (dict_contains _ "html").
  - apply dict_get_set_same.
  - rewrite dict_get_set_other by discriminate. apply dict_get_set_same.
Qed.

(** X15: with the coverage plugin, the configuration hook leaves the
    coverage reports with an [xml] report at the resolved
    [coverage/coverage.xml], whatever target was asked for before, and
    with an [html] report, at the target asked for or at [None]; the
    other reports are as they were, and configuring again changes
    nothing more.  Without the plugin the reports are not touched. *)
Theorem configure_registers_coverage_reports
  (xmlpath : Datatypes.option str) (c : Config)
  (d : Dict (Datatypes.option str)) :
  let d' := snd (pytest_configure host xmlpath c d) in
  (has_plugin c "pytest_cov" = false -> d' = d)
  /\ (has_plugin c "pytest_cov" = true ->
      dict_get d' "xml" = Some (Some (resolve host DEFAULT_COVERAGE_PATH))
      /\ dict_get d' "html"
         = Some (match dict_get d "html" with Some v => v | None => None end)
      /\ (forall k, k <> "xml"%string -> k <> "html"%string ->
                    dict_get d' k = dict_get d k)
      /\ (forall xmlpath',
             snd (pytest_configure host xmlpath'
                    (fst (pytest_configure host xmlpath c d)) d') = d')).
Proof.
  intros d'. subst d'. split.
  - intros H. unfold pytest_configure. now rewrite H.
  - intros H. rewrite (cov_report_configured xmlpath c d H). cbv zeta.
    set (p := resolve host DEFAULT_COVERAGE_PATH).
    assert (Hhtml : dict_get (dict_set d "xml" (Some p)) "html"
                    = dict_get d "html")
      by (apply dict_get_set_other; discriminate).
    unfold dict_contains. rewrite Hhtml.
    destruct (dict_get d "html") as [v|] eqn:Hd.
    + repeat split.
      * apply dict_get_set_same.
      * exact Hhtml.
      * intros k Hx _. now apply dict_get_set_other.
      * intros xmlpath'. rewrite cov_report_configured
          by (now rewrite has_plugin_configured).
        cbv zeta. fold p. rewrite dict_set_twice.
        unfold dict_contains. now rewrite Hhtml.
    + repeat split.
      * rewrite dict_get_set_other by discriminate. apply dict_get_set_same.
      * apply dict_get_set_same.
      * intros k Hx Hh. rewrite !dict_get_set_other by assumption.
        reflexivity.
      * intros xmlpath'. rewrite cov_report_configured
          by (now rewrite has_plugin_configured).
        cbv zeta. fold p.
        assert (Hxml : dict_set (dict_set (dict_set d "xml" (Some p)) "html" None)
                         "xml" (Some p)
                       = dict_set (dict_set d "xml" (Some p)) "html" None).
        { clear. induction d as [|[k v] d IH]; [reflexivity|].
          simpl. destruct (String.eqb k "xml") eqn:E; simpl.
          - destruct (String.eqb k "html") eqn:E'.
            + apply String.eqb_eq in E, E'. congruence.
            + simpl. now rewrite E.
          - destruct (String.eqb k "html") eqn:E'; simpl; rewrite E.
            + now rewrite dict_set_twice.
            + now rewrite IH. }
        rewrite Hxml. unfold dict_contains.
        now rewrite dict_get_set_same.
Qed.

(** X16: the configuration hook and the end-of-session hook agree on the
    coverage XML: in a session the first configured, with the coverage
    step taken and the detection done, the file whose absence makes the
    second end on the warning, and whose presence makes it end on the
    coverage directive, is the target the first gave the [xml] report. *)
Theorem hooks_agree_on_coverage_xml (xmlpath : Datatypes.option str)
  (c : Config) (d : Dict (Datatypes.option str)) (failed collected : Z)
  (aborted : BoolOrStr) (exitstatus : Z) (w : W)
  (mountinfo : Datatypes.option str) :
  let configured := pytest_configure host xmlpath c d in
  let session := {| config := fst configured; testsfailed := failed;
                    testscollected := collected; shouldfail := aborted |} in
  let r := pytest_sessionfinish host session exitstatus (start w) in
  coverage_enabled session = true ->
  detection host session w = inr mountinfo ->
  exists target,
    dict_get (snd configured) "xml" = Some (Some target)
    /\ (os_path_exists host w target = false ->
        last (printed r) [] = log_warning_directive coverage_missing_message)
    /\ (os_path_exists host w target = true ->
        last (printed r) []
        = publish_coverage_directive
            (map_if_mounted mountinfo target)
            (map_if_mounted mountinfo
               (os_path_normpath host
                  (os_path_abspath host DEFAULT_HTML_COVERAGE_PATH)))).
Proof.
  intros configured session r Hcov Hdet.
  assert (Hplugin : has_plugin c "pytest_cov" = true).
  { unfold coverage_enabled in Hcov. apply andb_prop in Hcov as [_ H].
    subst session configured. cbn [config] in H.
    now rewrite has_plugin_configured in H. }
  exists (resolve host DEFAULT_COVERAGE_PATH). split.
  { now apply cov_report_xml_configured. }
  subst r. rewrite pytest_sessionfinish_detection. cbn [fs start].
  rewrite Hdet. unfold printed, finished, session_lines, coverage_lines.
  cbn [fst fs stdout start app]. rewrite Hcov.
  split; intros Hex; rewrite Hex; rewrite !app_assoc; apply last_last.
Qed.

End ConfigureProperties.

Section DefaultPath.

Context {W : Type} (host : Host W).


End DefaultPath.

(** ** The search for the resources folder *)

Lemma dropwhile_length (p : char -> bool) (s : str) :
  (len (dropwhile p s) <= len s)%nat.
Proof.
  unfold len. induction s as [|c s IH]; simpl; [lia|].
  destruct (p c); simpl; lia.
Qed.

Lemma dropwhile_suffix (p : char -> bool) (s : str) :
  exists pre, s = pre ++ dropwhile p s.
Proof.
  induction s as [|c s [pre IH]]; [now exists []|].
  simpl. destruct (p c); [|now exists []].
  exists (c :: pre). simpl. now rewrite <- IH.
Qed.

Lemma rev_dropwhile_prefix (p : char -> bool) (s : str) :
  exists rest, s = rev (dropwhile p (rev s)) ++ rest.
Proof.
  destruct (dropwhile_suffix p (rev s)) as [pre H].
  exists (rev pre). rewrite <- rev_app_distr, <- H. now rewrite rev_involutive.
Qed.

Lemma startswith_prefix_of (s t rest p : str) :
  s = t ++ rest -> startswith s p = false -> startswith t p = false.
Proof.
  intros -> H. destruct (startswith t p) eqn:E; [|reflexivity].
  apply startswith_spec in E as [r ->].
  rewrite <- app_assoc, startswith_app in H. discriminate.
Qed.

(** The directory of a path is a prefix of the path. *)
Lemma posix_dirname_prefix (p : str) :
  exists rest, p = posix_dirname p ++ rest.
Proof.
  unfold posix_dirname, rstrip_slash.
  set (head := rev (dropwhile (fun c => negb (c =? SLASH)%N) (rev p))).
  destruct (rev_dropwhile_prefix (fun c => negb (c =? SLASH)%N) p)
    as [rest Hrest]. fold head in Hrest.
  destruct (truthy head && negb (forallb (fun c => (c =? SLASH)%N) head));
    [|now exists rest].
  destruct (rev_dropwhile_prefix (fun c => (c =? SLASH)%N) head)
    as [rest' Hrest'].
  exists (rest' ++ rest). rewrite app_assoc, <- Hrest'. exact Hrest.
Qed.

Lemma all_slashes_single (p : str) :
  p <> [] -> forallb (fun c => (c =? SLASH)%N) p = true ->
  startswith p (u "//") = false -> p = u "/".
Proof.
  intros Hne Hall Hs. destruct p as [|c [|d p]]; [contradiction| |].
  - simpl in Hall. rewrite andb_true_r in Hall. apply N.eqb_eq in Hall.
    now subst c.
  - simpl in Hall. apply andb_prop in Hall as [Hc Hall].
    apply andb_prop in Hall as [Hd _].
    apply N.eqb_eq in Hc, Hd. subst c d. discriminate Hs.
Qed.

(** The directory of a path that is neither empty nor [/] and does not
    start with two slashes is shorter than the path. *)
Lemma posix_dirname_shorter (p : str) :
  startswith p (u "//") = false -> p <> [] -> p <> u "/" ->
  (len (posix_dirname p) < len p)%nat.
Proof.
  intros Hs Hne Hroot. unfold posix_dirname, rstrip_slash.
  assert (Hlen : len (rev p) = len p) by apply length_rev.
  destruct (rev p) as [|c q] eqn:Hq.
  { apply (f_equal (@rev char)) in Hq. rewrite rev_involutive in Hq.
    contradiction. }
  cbn [dropwhile]. destruct (N.eqb_spec c SLASH) as [->|Hc]; cbn [negb].
  - change (rev (SLASH :: q)) with (rev (SLASH :: q)).
    rewrite <- Hq, rev_involutive.
    assert (Htruthy : truthy p = true) by (destruct p; [contradiction|reflexivity]).
    rewrite Htruthy. cbn [andb].
    destruct (forallb (fun c => (c =? SLASH)%N) p) eqn:Hall; cbn [negb].
    + exfalso. apply Hroot. now apply all_slashes_single.
    + rewrite Hq. cbn [dropwhile]. rewrite N.eqb_refl.
      unfold len in *. rewrite length_rev.
      pose proof (dropwhile_length (fun c => (c =? SLASH)%N) q) as Hd.
      unfold len in Hd. simpl in Hlen. lia.
  - pose proof (dropwhile_length (fun c => negb (c =? SLASH)%N) q) as Hd.
    set (head := rev (dropwhile (fun c => negb (c =? SLASH)%N) q)).
    assert (Hhead : (len head < len p)%nat).
    { unfold head, len in *. rewrite length_rev. simpl in Hlen. lia. }
    destruct (truthy head && negb (forallb (fun c => (c =? SLASH)%N) head));
      [|exact Hhead].
    pose proof (dropwhile_length (fun c => (c =? SLASH)%N) (rev head)) as Hd'.
    unfold len in *. rewrite !length_rev in *. lia.
Qed.



Section ResourceFolderProperties.

Context {W : Type} (host : Host W) (os_path_dirname : str -> str).



(** X20: where [os.path.dirname] gives a path back unchanged, and the path
    is neither empty nor [/] and has no [resources] in it, the search
    never ends: no number of rounds is enough. *)
Theorem resource_search_loops_at_fixed_point (w : W) (ancestor : str) :
  os_path_dirname ancestor = ancestor ->
  truthy ancestor = true ->
  str_eq ancestor (u "/") = false ->
  os_path_exists host w (os_path_join host ancestor (u "resources")) = false ->
  forall fuel, resource_folder_from host os_path_dirname fuel w ancestor = None.
Proof.
  intros Hfix Ht Hroot Hno fuel. induction fuel as [|fuel IH];
    [reflexivity|].
  cbn [resource_folder_from]. rewrite Hno, Hfix, Ht, Hroot. exact IH.
Qed.

End ResourceFolderProperties.

Section ResourceFolderPosix.

Context {W : Type} (host : Host W).

Lemma resource_search_ends_within (n : nat) (w : W) :
  forall ancestor,
    (len ancestor <= n)%nat ->
    startswith ancestor (u "//") = false ->
    exists r,
      resource_folder_from host posix_dirname (S n) w ancestor = Some r.
Proof.
  induction n as [|n IH]; intros ancestor Hlen Hs.
  - destruct ancestor; [|unfold len in Hlen; simpl in Hlen; lia].
    cbn [resource_folder_from].
    destruct (negb (os_path_exists _ _ _)); [|eauto].
    change (posix_dirname []) with (@nil char). cbn [truthy negb orb].
    destruct (os_path_exists _ _ _); eauto.
  - cbn [resource_folder_from].
    destruct (negb (os_path_exists host w
                      (os_path_join host ancestor (u "resources"))));
      [|eauto].
    destruct (negb (truthy (posix_dirname ancestor))
              || str_eq (posix_dirname ancestor) (u "/")) eqn:Hroot.
    { destruct (os_path_exists _ _ _); eauto. }
    apply IH.
    + assert (Hne : ancestor <> []).
      { intros ->. discriminate Hroot. }
      assert (Hnr : ancestor <> u "/").
      { intros ->. discriminate Hroot. }
      pose proof (posix_dirname_shorter Hs Hne Hnr). lia.
    + destruct (posix_dirname_prefix ancestor) as [rest Hrest].
      eapply startswith_prefix_of; [exact Hrest|exact Hs].
Qed.

(** X19: with the [dirname] of POSIX the search for the resources folder
    ends, on every file system, for every starting path that does not
    begin with two slashes: one round more than the path has characters
    is enough. *)
Theorem resource_search_ends_on_posix (w : W) (ancestor : str) :
  startswith ancestor (u "//") = false ->
  exists r,
    resource_folder_from host posix_dirname (S (len ancestor)) w ancestor
    = Some r.
Proof. intros H. now apply resource_search_ends_within. Qed.

End ResourceFolderPosix.

(** ** The further properties in the container *)

Lemma no_docker_discovery_publishes_nothing_witness :
  pytest_sessionfinish Container.host Plugin.undiscovering_session 0
    (start Container.fs_bind_mounted)
  = ({| fs := Container.fs_bind_mounted;
        stdout := [results_skipped_line; coverage_skipped_line] |}, inr tt).
Proof.
  apply (no_docker_discovery_publishes_nothing Container.host
           Plugin.undiscovering_session 0 (start Container.fs_bind_mounted)).
  reflexivity.
Defined.

Lemma file_system_changes_only_by_inlining_witness :
  fs (fst (pytest_sessionfinish Container.host Container.failing_session 1
             (start Container.fs_without_mountinfo)))
  = Container.fs_without_mountinfo
  /\ fs (fst (pytest_sessionfinish Container.host Plugin.passing_session 0
                (start Container.fs_bind_mounted)))
     = Container.fs_bind_mounted.
Proof.
  split.
  - apply (file_system_changes_only_by_inlining Container.host
             Container.failing_session 1
             (start Container.fs_without_mountinfo)).
    left. vm_compute. reflexivity.
  - apply (file_system_changes_only_by_inlining Container.host
             Plugin.passing_session 0 (start Container.fs_bind_mounted)).
    right. left. reflexivity.
Defined.

Lemma coverage_step_has_one_outcome_witness :
  let r := pytest_sessionfinish Container.host Container.failing_session 1
             (start Container.fs_bind_mounted) in
  returns r = true
  /\ (count is_publish_coverage (printed r)
      + count is_coverage_missing (printed r)
      + count is_coverage_skipped (printed r) = 1)%nat
  /\ (count is_log_warning (printed r) <= 1)%nat.
Proof.
  cbv zeta.
  assert (Hr : returns (pytest_sessionfinish Container.host
                          Container.failing_session 1
                          (start Container.fs_bind_mounted)) = true)
    by (vm_compute; reflexivity).
  destruct (coverage_step_has_one_outcome Container.host
              Container.failing_session 1 Container.fs_bind_mounted Hr)
    as (_ & Hone & Hwarn & _).
  split; [exact Hr|]. split; [exact Hone|exact Hwarn].
Defined.

Lemma plain_run_prints_two_lines_witness :
  pytest_sessionfinish Container.host Plugin.passing_session 0
    (start Plugin.fs_plain)
  = ({| fs := Plugin.fs_plain;
        stdout :=
          [u "##vso[results.publish type=NUnit;runTitle='Pytest results';publishRunAttachments=true;]/app/test-output.xml";
           u "Skipping uploading of coverage data."] |}, inr tt).
Proof.
  apply (plain_run_prints_two_lines Container.host Plugin.passing_session 0
           (start Plugin.fs_plain)); reflexivity.
Defined.

Lemma title_reads_back_from_directive_witness :
  exists line,
    hd_error (printed (pytest_sessionfinish Container.host
                         Container.quoted_session 0
                         (start Container.fs_bind_mounted))) = Some line
    /\ nth 1 (split QUOTE line) []
       = replace (u "'") [] (u "Bob's 'nightly' run").
Proof.
  apply (title_reads_back_from_directive Container.host
           Container.quoted_session 0 Container.fs_bind_mounted).
  - reflexivity.
  - vm_compute. reflexivity.
Defined.

Lemma inlining_skips_other_files_witness :
  inline_css_into_each_html_report_file Container.host
    (u "/app/coverage/htmlcov") (start Plugin.fs_report_data)
  = (start Plugin.fs_report_data, inr tt).
Proof.
  apply (inlining_skips_other_files Container.host (u "/app/coverage/htmlcov")
           (folder := u "/plugin/resources") (css := u "body {}")
           (names := [u "status.json"; u "html"; u "page.HTML"])
           (start Plugin.fs_report_data));
    vm_compute; reflexivity.
Defined.

Lemma inlining_fails_before_writing_witness :
  inline_css_into_each_html_report_file Container.host
    (u "/app/coverage/htmlcov") (start Container.fs_without_stylesheet)
  = (start Container.fs_without_stylesheet,
     inl (Container.no_such_file (u "/plugin/resources/style.css"))).
Proof.
  apply (inlining_fails_before_writing Container.host
           (u "/app/coverage/htmlcov") (start Container.fs_without_stylesheet)).
  right. left. exists (u "/plugin/resources").
  split; vm_compute; reflexivity.
Defined.

Lemma style_goes_before_head_witness :
  Container.lookup (u "/app/coverage/htmlcov/index.html")
    (Container.files
       (fs (fst (inline_css_into_each_html_report_file Container.host
                   (u "/app/coverage/htmlcov") (start Plugin.fs_report_page)))))
  = Some (u "<html><head><title>Coverage</title>" ++ [10%N]
          ++ u "<style>" ++ [10%N] ++ u "body {}" ++ [10%N] ++ u "</style>"
          ++ [10%N] ++ u "</head><body></body></html>").
Proof.
  pose (w := start Plugin.fs_report_page).
  assert (H1 : get_resource_folder_path Container.host (fs w)
               = inr (u "/plugin/resources")) by reflexivity.
  assert (H2 : read_text Container.host (fs w)
                 (os_path_join Container.host (u "/plugin/resources")
                    (u "style.css")) = inr (u "body {}"))
    by (vm_compute; reflexivity).
  assert (H3 : os_listdir Container.host (fs w) (u "/app/coverage/htmlcov")
               = inr [u "index.html"]) by (vm_compute; reflexivity).
  assert (H4 : endswith (u "index.html") (u ".html") = true)
    by (vm_compute; reflexivity).
  assert (H5 : read_text Container.host (fs w)
                 (os_path_join Container.host (u "/app/coverage/htmlcov")
                    (u "index.html"))
               = inr (u "<html><head><title>Coverage</title></head><body></body></html>"))
    by (vm_compute; reflexivity).
  destruct (@style_goes_before_head _ Container.host _ _ _ _ _ _
              H1 H2 H3 H4 H5)
    as [Hsome _].
  subst w. rewrite (Hsome 35%nat) by (vm_compute; reflexivity).
  vm_compute. reflexivity.
Defined.

Lemma configure_registers_coverage_reports_witness :
  snd (pytest_configure Container.host None
         (config Container.failing_session) Plugin.cov_report_asked)
  = [("term"%string, None);
     ("xml"%string, Some (u "/app/coverage/coverage.xml"));
     ("html"%string, None)]
  /\ dict_get
       (snd (pytest_configure Container.host None
               (config Container.failing_session) Plugin.cov_report_asked))
       "xml"
     = Some (Some (resolve Container.host DEFAULT_COVERAGE_PATH)).
Proof.
  split; [vm_compute; reflexivity|].
  apply (proj2 (configure_registers_coverage_reports Container.host None
                  (config Container.failing_session)
                  Plugin.cov_report_asked)).
  reflexivity.
Defined.

Lemma hooks_agree_on_coverage_xml_witness :
  exists target,
    dict_get
      (snd (pytest_configure Container.host None
              (config Container.failing_session) Plugin.cov_report_asked))
      "xml" = Some (Some target)
    /\ os_path_exists Container.host Container.fs_bind_mounted target = true.
Proof.
  assert (Hcov : coverage_enabled
                   {| config := fst (pytest_configure Container.host None
                                       (config Container.failing_session)
                                       Plugin.cov_report_asked);
                      testsfailed := 1; testscollected := 3;
                      shouldfail := PyBool false |} = true)
    by (vm_compute; reflexivity).
  assert (Hdet : detection Container.host
                   {| config := fst (pytest_configure Container.host None
                                       (config Container.failing_session)
                                       Plugin.cov_report_asked);
                      testsfailed := 1; testscollected := 3;
                      shouldfail := PyBool false |} Container.fs_bind_mounted
                 = inr (Some Container.mountinfo_text))
    by (vm_compute; reflexivity).
  destruct (@hooks_agree_on_coverage_xml _ Container.host None
              (config Container.failing_session) Plugin.cov_report_asked
              1 3 (PyBool false) 1 Container.fs_bind_mounted _ Hcov Hdet)
    as (target & Hxml & _ & _).
  exists target. split; [exact Hxml|].
  vm_compute in Hxml. injection Hxml as <-. vm_compute. reflexivity.
Defined.



Lemma resource_search_ends_on_posix_witness :
  exists r,
    resource_folder_from Container.host posix_dirname
      (S (len (u "/opt/venv/lib/site-packages"))) Plugin.fs_plain
      (u "/opt/venv/lib/site-packages")
    = Some r.
Proof.
  apply (resource_search_ends_on_posix Container.host Plugin.fs_plain
           (u "/opt/venv/lib/site-packages")).
  reflexivity.
Defined.

Lemma resource_search_loops_at_fixed_point_witness :
  resource_folder_from Container.host posix_dirname 1000 Plugin.fs_plain
    (u "//")
  = None.
Proof.
  apply (@resource_search_loops_at_fixed_point _ Container.host posix_dirname
           Plugin.fs_plain (u "//")); vm_compute; reflexivity.
Defined.
